(** * Price calculator: the pricing engine of [src/app/(tabs)/index.tsx]

    A shallow embedding of the validation, calculation, history and display
    code of the [PriceCalculator] component, and the properties its
    specification states about them.

    Numbers.  A JavaScript number is modelled as a rational extended with
    [NaN] and the two infinities; zero is unsigned.  The first embedding
    computes with exact rationals: it is used for what does not depend on
    how a double rounds (which checks fire, which fields a stage writes,
    how the state evolves) and for evaluating the code at inputs whose
    intermediate values are the same in both arithmetics.  The second
    embedding, module [B64], rounds every parsed literal and every
    arithmetic result to the nearest binary64 value as the code does: it is
    used where the recorded value depends on that rounding.

    Strings.  A form field is a [string]; its characters stand for the code
    units below 256. *)

From Stdlib Require Import QArith Qround Lqa Ascii String.
From stdpp Require Import gmap strings list fin_maps.

Local Open Scope Z_scope.

(** ** JavaScript numbers *)

Module JS.

Inductive num : Type :=
  | NaN
  | Inf (negative : bool)
  | Fin (q : Q).

Definition Qltb (a b : Q) : bool := negb (Qle_bool b a).
Definition Qis0 (a : Q) : bool := Qeq_bool a 0.

Definition of_Z (z : Z) : num := Fin (inject_Z z).

(** Unary minus. *)
Definition neg (a : num) : num :=
  match a with
  | NaN => NaN
  | Inf s => Inf (negb s)
  | Fin q => Fin (- q)
  end.

(** [a + b] *)
Definition add (a b : num) : num :=
  match a, b with
  | NaN, _ | _, NaN => NaN
  | Inf s, Inf t => if Bool.eqb s t then Inf s else NaN
  | Inf s, Fin _ => Inf s
  | Fin _, Inf t => Inf t
  | Fin x, Fin y => Fin (x + y)
  end.

(** [a - b] *)
Definition sub (a b : num) : num := add a (neg b).

(** [a * b] *)
Definition mul (a b : num) : num :=
  match a, b with
  | NaN, _ | _, NaN => NaN
  | Inf s, Inf t => Inf (xorb s t)
  | Inf s, Fin y => if Qis0 y then NaN else Inf (xorb s (Qltb y 0))
  | Fin x, Inf t => if Qis0 x then NaN else Inf (xorb (Qltb x 0) t)
  | Fin x, Fin y => Fin (x * y)
  end.

(** [a / b]; a finite number over zero follows the rule for a positive
    zero (the program divides by values it has tested to be positive, and
    by the constant 100). *)
Definition div (a b : num) : num :=
  match a, b with
  | NaN, _ | _, NaN => NaN
  | Inf _, Inf _ => NaN
  | Inf s, Fin y => Inf (xorb s (Qltb y 0))
  | Fin _, Inf _ => Fin 0
  | Fin x, Fin y =>
      if Qis0 y then (if Qis0 x then NaN else Inf (Qltb x 0))
      else Fin (x / y)
  end.

(** The comparisons [<], [<=], [>], [>=]: false as soon as an operand is
    [NaN]. *)
Definition lt (a b : num) : bool :=
  match a, b with
  | NaN, _ | _, NaN => false
  | Inf s, Inf t => s && negb t
  | Inf s, Fin _ => s
  | Fin _, Inf t => negb t
  | Fin x, Fin y => Qltb x y
  end.

Definition le (a b : num) : bool :=
  match a, b with
  | NaN, _ | _, NaN => false
  | Inf s, Inf t => s || negb t
  | Inf s, Fin _ => s
  | Fin _, Inf t => negb t
  | Fin x, Fin y => Qle_bool x y
  end.

Definition gt (a b : num) : bool := lt b a.
Definition ge (a b : num) : bool := le b a.

(** [Math.min(a, b)] and [Math.max(a, b)]: [NaN] if an operand is. *)
Definition min (a b : num) : num :=
  match a, b with
  | NaN, _ | _, NaN => NaN
  | _, _ => if le a b then a else b
  end.

Definition max (a b : num) : num :=
  match a, b with
  | NaN, _ | _, NaN => NaN
  | _, _ => if le a b then b else a
  end.

(** [Math.floor], [Math.ceil], and [Math.round], which rounds to the
    nearest integer with ties towards positive infinity. *)
Definition floor (a : num) : num :=
  match a with
  | Fin q => of_Z (Qfloor q)
  | _ => a
  end.

Definition ceil (a : num) : num :=
  match a with
  | Fin q => of_Z (Qceiling q)
  | _ => a
  end.

Definition round (a : num) : num :=
  match a with
  | Fin q => of_Z (Qfloor (q + (1 # 2)))
  | _ => a
  end.

(** [Number.EPSILON] is 2^-52. *)
Definition EPSILON : num := Fin (1 # 4503599627370496).

(** [isNaN] of a number. *)
Definition is_nan (a : num) : bool :=
  match a with NaN => true | _ => false end.

Definition is_fin (a : num) : bool :=
  match a with Fin _ => true | _ => false end.

Definition is_inf (a : num) : bool :=
  match a with Inf _ => true | _ => false end.

(** Numeric equality of two numbers of the model ([NaN] equal to itself
    here: this is the relation results are compared with, not [===]). *)
Definition same (a b : num) : Prop :=
  match a, b with
  | NaN, NaN => True
  | Inf s, Inf t => s = t
  | Fin x, Fin y => (x == y)%Q
  | _, _ => False
  end.

(** *** Strings to numbers *)

Definition code (c : ascii) : N := N_of_ascii c.

(** White space and line terminators among the code units below 256:
    TAB, LF, VT, FF, CR, SP and NBSP. *)
Definition is_space (c : ascii) : bool :=
  let n := code c in
  ((9 <=? n) && (n <=? 13) || (n =? 32) || (n =? 160))%N.

Fixpoint trim_start (s : string) : string :=
  match s with
  | String c r => if is_space c then trim_start r else s
  | EmptyString => s
  end.

Fixpoint trim_end (s : string) : string :=
  match s with
  | EmptyString => EmptyString
  | String c r =>
      match trim_end r with
      | EmptyString => if is_space c then EmptyString else String c EmptyString
      | r' => String c r'
      end
  end.

Definition trim (s : string) : string := trim_end (trim_start s).

(** The value of a digit in base [b], if the character is one. *)
Definition digit_of (b : N) (c : ascii) : option N :=
  let n := code c in
  let v :=
    if ((48 <=? n) && (n <=? 57))%N then Some (n - 48)%N
    else if ((97 <=? n) && (n <=? 102))%N then Some (n - 87)%N
    else if ((65 <=? n) && (n <=? 70))%N then Some (n - 55)%N
    else None in
  match v with
  | Some d => if (d <? b)%N then Some d else None
  | None => None
  end.

(** The longest run of base-[b] digits at the start of [s], and the rest. *)
Fixpoint digits (b : N) (s : string) : list N * string :=
  match s with
  | String c r =>
      match digit_of b c with
      | Some d => let '(ds, r') := digits b r in (d :: ds, r')
      | None => ([], s)
      end
  | EmptyString => ([], s)
  end.

Definition value_of (b : N) (ds : list N) : N :=
  fold_left (fun acc d => (b * acc + d)%N) ds 0%N.

Fixpoint strip_prefix (p s : string) : option string :=
  match p, s with
  | EmptyString, _ => Some s
  | String a p', String c s' =>
      if Ascii.eqb a c then strip_prefix p' s' else None
  | String _ _, EmptyString => None
  end.

(** ExponentPart: [e] or [E], an optional sign, at least one digit. *)
Definition exponent_part (s : string) : option (Z * string) :=
  match s with
  | String c r =>
      if (Ascii.eqb c "e" || Ascii.eqb c "E")%bool then
        let '(sg, r1) :=
          match r with
          | String "+" r1 => (1, r1)
          | String "-" r1 => (-1, r1)
          | _ => (1, r)
          end in
        let '(es, r2) := digits 10 r1 in
        match es with
        | [] => None
        | _ => Some (sg * Z.of_N (value_of 10 es), r2)
        end
      else None
  | EmptyString => None
  end.

(** The number written by integer digits [ip], fraction digits [fp] and
    the exponent that starts [s] (if one does), and what follows it. *)
Definition scaled (ip fp : list N) (s : string) : num * string :=
  let m := inject_Z (Z.of_N (value_of 10 (ip ++ fp))) in
  let '(e, r) :=
    match exponent_part s with
    | Some (e, r) => (e, r)
    | None => (0, s)
    end in
  (Fin (m * Qpower (10 # 1) (e - Z.of_nat (length fp))), r).

(** The longest prefix of [s] that is a StrUnsignedDecimalLiteral. *)
Definition unsigned_decimal (s : string) : option (num * string) :=
  match strip_prefix "Infinity" s with
  | Some r => Some (Inf false, r)
  | None =>
      let '(ip, r1) := digits 10 s in
      match ip, r1 with
      | _ :: _, String "." r2 =>
          let '(fp, r3) := digits 10 r2 in Some (scaled ip fp r3)
      | _ :: _, _ => Some (scaled ip [] r1)
      | [], String "." r2 =>
          let '(fp, r3) := digits 10 r2 in
          match fp with
          | [] => None
          | _ => Some (scaled [] fp r3)
          end
      | [], _ => None
      end
  end.

(** The longest prefix of [s] that is a StrDecimalLiteral. *)
Definition decimal (s : string) : option (num * string) :=
  match s with
  | String "+" r => unsigned_decimal r
  | String "-" r =>
      match unsigned_decimal r with
      | Some (v, r') => Some (neg v, r')
      | None => None
      end
  | _ => unsigned_decimal s
  end.

(** A NonDecimalIntegerLiteral: [0x], [0o] or [0b] and digits of that
    base, nothing else. *)
Definition non_decimal (s : string) : option num :=
  match s with
  | String "0" (String c r) =>
      let b : option N :=
        if (Ascii.eqb c "x" || Ascii.eqb c "X")%bool then Some 16%N
        else if (Ascii.eqb c "o" || Ascii.eqb c "O")%bool then Some 8%N
        else if (Ascii.eqb c "b" || Ascii.eqb c "B")%bool then Some 2%N
        else None in
      match b with
      | Some b =>
          match digits b r with
          | ((_ :: _) as ds, EmptyString) => Some (of_Z (Z.of_N (value_of b ds)))
          | _ => None
          end
      | None => None
      end
  | _ => None
  end.

(** [Number(s)], the conversion the global [isNaN] applies to a string:
    the trimmed string is empty (0), a decimal literal, a non-decimal
    integer literal, or the result is [NaN]. *)
Definition toNumber (s : string) : num :=
  let t := trim s in
  match t with
  | EmptyString => Fin 0
  | _ =>
      match decimal t with
      | Some (v, EmptyString) => v
      | _ =>
          match non_decimal t with
          | Some v => v
          | None => NaN
          end
      end
  end.

(** The global [isNaN(s)] on a string. *)
Definition isNaN (s : string) : bool := is_nan (toNumber s).

(** [parseFloat(s)]: leading white space is dropped and the longest
    prefix that is a decimal literal is read; [NaN] if there is none. *)
Definition parseFloat (s : string) : num :=
  match decimal (trim_start s) with
  | Some (v, _) => v
  | None => NaN
  end.

(** Truthiness of a string: every string but the empty one. *)
Definition truthy (s : string) : bool :=
  match s with EmptyString => false | _ => true end.

End JS.

Import JS.

(** ** Data model *)

(** The [form] state (lines 89-102): every field is the text of an input,
    except the [useCoupon] switch. *)
Module Form.
Record t : Type := mk {
  originalPrice : string;
  discountRate : string;
  shippingFee : string;
  useCoupon : bool;
  couponValue : string;
  buyX : string;
  getY : string;
  itemPrice : string;
  quantity : string;
  spendAmount : string;
  saveAmount : string;
  taxRate : string
}.

(** The initial form, also the one [resetForm] installs. *)
Definition initial : t :=
  {| originalPrice := ""; discountRate := ""; shippingFee := "";
     useCoupon := false; couponValue := ""; buyX := ""; getY := "";
     itemPrice := ""; quantity := "1"; spendAmount := ""; saveAmount := "";
     taxRate := "" |}.
End Form.

(** The [breakdown] object (lines 231-239). *)
Module Breakdown.
Record t : Type := mk {
  basePrice : num;
  discountAmount : num;
  couponAmount : num;
  promotionAmount : num;
  spendSaveAmount : num;
  shippingFee : num;
  taxAmount : num
}.

Definition zero : t :=
  {| basePrice := of_Z 0; discountAmount := of_Z 0; couponAmount := of_Z 0;
     promotionAmount := of_Z 0; spendSaveAmount := of_Z 0;
     shippingFee := of_Z 0; taxAmount := of_Z 0 |}.

Definition set_discountAmount (v : num) (b : t) : t :=
  {| basePrice := basePrice b; discountAmount := v;
     couponAmount := couponAmount b; promotionAmount := promotionAmount b;
     spendSaveAmount := spendSaveAmount b; shippingFee := shippingFee b;
     taxAmount := taxAmount b |}.

Definition set_couponAmount (v : num) (b : t) : t :=
  {| basePrice := basePrice b; discountAmount := discountAmount b;
     couponAmount := v; promotionAmount := promotionAmount b;
     spendSaveAmount := spendSaveAmount b; shippingFee := shippingFee b;
     taxAmount := taxAmount b |}.

Definition set_promotionAmount (v : num) (b : t) : t :=
  {| basePrice := basePrice b; discountAmount := discountAmount b;
     couponAmount := couponAmount b; promotionAmount := v;
     spendSaveAmount := spendSaveAmount b; shippingFee := shippingFee b;
     taxAmount := taxAmount b |}.

Definition set_spendSaveAmount (v : num) (b : t) : t :=
  {| basePrice := basePrice b; discountAmount := discountAmount b;
     couponAmount := couponAmount b; promotionAmount := promotionAmount b;
     spendSaveAmount := v; shippingFee := shippingFee b;
     taxAmount := taxAmount b |}.

Definition set_taxAmount (v : num) (b : t) : t :=
  {| basePrice := basePrice b; discountAmount := discountAmount b;
     couponAmount := couponAmount b; promotionAmount := promotionAmount b;
     spendSaveAmount := spendSaveAmount b; shippingFee := shippingFee b;
     taxAmount := v |}.
End Breakdown.

(** What a calculation produces: the argument of [setCalculationResults]
    (lines 304-308). *)
Record Result : Type := mkResult {
  finalPrice : num;
  totalSavings : num;
  breakdown : Breakdown.t
}.

(** An entry of the history list (lines 318-326). *)
Record HistoryItem : Type := mkItem {
  item_id : Z;
  item_timestamp : string;
  item_currency : string;
  item_finalPrice : num;
  item_totalSavings : num;
  item_originalPrice : string;
  item_breakdown : Breakdown.t
}.

(** ** Validation *)

Definition quoted (s : string) : string :=
  String (ascii_of_nat 34) s +:+ String (ascii_of_nat 34) EmptyString.

Definition msg_originalPrice : string := "Please enter a valid positive price".
Definition msg_discountRate : string := "Discount must be between 0-99%".
Definition msg_shippingFee : string := "Shipping fee cannot be negative".
Definition msg_taxRate : string := "Tax rate cannot be negative".
Definition msg_couponValue : string := "Please enter a valid coupon value".
Definition msg_buyXgetY : string :=
  "Both " +:+ quoted "Buy X" +:+ " and " +:+ quoted "Get Y"
  +:+ " must be positive numbers".
Definition msg_itemPrice : string := "Please enter a valid item price".
Definition msg_spendSave : string :=
  "Both " +:+ quoted "Spend" +:+ " and " +:+ quoted "Save"
  +:+ " amounts must be positive numbers".

(** The conditions of the eight [if] statements of [validateInputs], in
    source order (lines 172, 177, 181, 185, 190, 195, 201, 206). *)
Section Rules.
Variable f : Form.t.
Import Form.

Definition bad_originalPrice : bool :=
  negb (truthy (originalPrice f)) || isNaN (originalPrice f)
  || le (parseFloat (originalPrice f)) (of_Z 0).

Definition bad_discountRate : bool :=
  truthy (discountRate f)
  && (isNaN (discountRate f) || lt (parseFloat (discountRate f)) (of_Z 0)
      || ge (parseFloat (discountRate f)) (of_Z 100)).

Definition bad_shippingFee : bool :=
  truthy (shippingFee f)
  && (isNaN (shippingFee f) || lt (parseFloat (shippingFee f)) (of_Z 0)).

Definition bad_taxRate : bool :=
  truthy (taxRate f)
  && (isNaN (taxRate f) || lt (parseFloat (taxRate f)) (of_Z 0)).

Definition bad_couponValue : bool :=
  useCoupon f
  && (negb (truthy (couponValue f)) || isNaN (couponValue f)
      || le (parseFloat (couponValue f)) (of_Z 0)).

Definition bad_buyXgetY : bool :=
  (truthy (buyX f) || truthy (getY f))
  && (negb (truthy (buyX f)) || negb (truthy (getY f))
      || isNaN (buyX f) || isNaN (getY f)
      || le (parseFloat (buyX f)) (of_Z 0)
      || le (parseFloat (getY f)) (of_Z 0)).

Definition bad_itemPrice : bool :=
  (truthy (buyX f) || truthy (getY f))
  && (negb (truthy (itemPrice f)) || isNaN (itemPrice f)
      || le (parseFloat (itemPrice f)) (of_Z 0)).

Definition bad_spendSave : bool :=
  (truthy (spendAmount f) || truthy (saveAmount f))
  && (negb (truthy (spendAmount f)) || negb (truthy (saveAmount f))
      || isNaN (spendAmount f) || isNaN (saveAmount f)
      || le (parseFloat (spendAmount f)) (of_Z 0)
      || le (parseFloat (saveAmount f)) (of_Z 0)).

(** [newErrors] as [validateInputs] leaves it at line 213: an object that
    starts empty and receives one assignment per key of a failed check. *)
Definition newErrors : gmap string string :=
  let e : gmap string string := ∅ in
  let e := if bad_originalPrice then <["originalPrice" := msg_originalPrice]> e else e in
  let e := if bad_discountRate then <["discountRate" := msg_discountRate]> e else e in
  let e := if bad_shippingFee then <["shippingFee" := msg_shippingFee]> e else e in
  let e := if bad_taxRate then <["taxRate" := msg_taxRate]> e else e in
  let e := if bad_couponValue then <["couponValue" := msg_couponValue]> e else e in
  let e := if bad_buyXgetY
           then <["getY" := msg_buyXgetY]> (<["buyX" := msg_buyXgetY]> e) else e in
  let e := if bad_itemPrice then <["itemPrice" := msg_itemPrice]> e else e in
  let e := if bad_spendSave
           then <["saveAmount" := msg_spendSave]> (<["spendAmount" := msg_spendSave]> e)
           else e in
  e.

(** The value [validateInputs] returns:
    [Object.keys(newErrors).length === 0]. *)
Definition valid : bool := bool_decide (size newErrors = 0%nat).

End Rules.

(** ** Calculation *)

(** [roundToTwoDecimals] (lines 71-73). *)
Definition roundToTwoDecimals (value : num) : num :=
  div (round (mul (add value EPSILON) (of_Z 100))) (of_Z 100).

(** The two variables the stages of [calculateFinalPrice] update:
    [runningTotal] and the [breakdown] object. *)
Record Acc : Type := mkAcc {
  runningTotal : num;
  acc_breakdown : Breakdown.t
}.

Section Stages.
Variable f : Form.t.

(** Lines 226-228. *)
Definition basePrice : num := parseFloat (Form.originalPrice f).
Definition shipping : num :=
  if truthy (Form.shippingFee f) then parseFloat (Form.shippingFee f) else of_Z 0.
Definition taxRate : num :=
  if truthy (Form.taxRate f) then parseFloat (Form.taxRate f) else of_Z 0.

(** Lines 230-239. *)
Definition start : Acc :=
  {| runningTotal := basePrice;
     acc_breakdown :=
       {| Breakdown.basePrice := basePrice;
          Breakdown.discountAmount := of_Z 0;
          Breakdown.couponAmount := of_Z 0;
          Breakdown.promotionAmount := of_Z 0;
          Breakdown.spendSaveAmount := of_Z 0;
          Breakdown.shippingFee := shipping;
          Breakdown.taxAmount := of_Z 0 |} |}.

(** 1. Percentage discount (lines 242-246). *)
Definition discount_applies : bool :=
  truthy (Form.discountRate f) && gt (parseFloat (Form.discountRate f)) (of_Z 0).

Definition applyDiscount (a : Acc) : Acc :=
  if discount_applies then
    let discountAmount :=
      roundToTwoDecimals
        (mul (runningTotal a) (div (parseFloat (Form.discountRate f)) (of_Z 100))) in
    {| runningTotal := sub (runningTotal a) discountAmount;
       acc_breakdown := Breakdown.set_discountAmount discountAmount (acc_breakdown a) |}
  else a.

(** 2. Buy X get Y (lines 249-261). *)
Definition promotion_applies : bool :=
  truthy (Form.buyX f) && truthy (Form.getY f) && truthy (Form.itemPrice f)
  && gt (parseFloat (Form.buyX f)) (of_Z 0)
  && gt (parseFloat (Form.getY f)) (of_Z 0)
  && gt (parseFloat (Form.itemPrice f)) (of_Z 0).

Definition singleItemPrice : num := parseFloat (Form.itemPrice f).
Definition quantity : num := ceil (div basePrice singleItemPrice).
Definition freeItemsCount : num :=
  mul (floor (div quantity (parseFloat (Form.buyX f)))) (parseFloat (Form.getY f)).
Definition freeItemsValue (a : Acc) : num :=
  roundToTwoDecimals (min (runningTotal a) (mul freeItemsCount singleItemPrice)).

Definition applyBuyXGetY (a : Acc) : Acc :=
  if promotion_applies then
    if gt quantity (of_Z 0) then
      {| runningTotal := sub (runningTotal a) (freeItemsValue a);
         acc_breakdown :=
           Breakdown.set_promotionAmount (freeItemsValue a) (acc_breakdown a) |}
    else a
  else a.

(** 3. Fixed coupon (lines 264-268). *)
Definition coupon_applies : bool :=
  Form.useCoupon f && truthy (Form.couponValue f)
  && gt (parseFloat (Form.couponValue f)) (of_Z 0).

Definition applyCoupon (a : Acc) : Acc :=
  if coupon_applies then
    let couponAmount := min (runningTotal a) (parseFloat (Form.couponValue f)) in
    {| runningTotal := sub (runningTotal a) couponAmount;
       acc_breakdown := Breakdown.set_couponAmount couponAmount (acc_breakdown a) |}
  else a.

(** 4. Spend and save (lines 271-278). *)
Definition spendSave_applies : bool :=
  truthy (Form.spendAmount f) && truthy (Form.saveAmount f)
  && gt (parseFloat (Form.spendAmount f)) (of_Z 0)
  && gt (parseFloat (Form.saveAmount f)) (of_Z 0)
  && ge basePrice (parseFloat (Form.spendAmount f)).

Definition applySpendSave (a : Acc) : Acc :=
  if spendSave_applies then
    let saveAmount := min (runningTotal a) (parseFloat (Form.saveAmount f)) in
    {| runningTotal := sub (runningTotal a) saveAmount;
       acc_breakdown := Breakdown.set_spendSaveAmount saveAmount (acc_breakdown a) |}
  else a.

(** 5. Shipping (line 281). *)
Definition addShipping (a : Acc) : Acc :=
  {| runningTotal := add (runningTotal a) shipping;
     acc_breakdown := acc_breakdown a |}.

(** 6. Tax (lines 284-288). *)
Definition applyTax (a : Acc) : Acc :=
  if gt taxRate (of_Z 0) then
    let taxAmount :=
      roundToTwoDecimals (mul (runningTotal a) (div taxRate (of_Z 100))) in
    {| runningTotal := add (runningTotal a) taxAmount;
       acc_breakdown := Breakdown.set_taxAmount taxAmount (acc_breakdown a) |}
  else a.

(** The running total and breakdown after each stage. *)
Definition afterDiscount : Acc := applyDiscount start.
Definition afterPromotion : Acc := applyBuyXGetY afterDiscount.
Definition afterCoupon : Acc := applyCoupon afterPromotion.
Definition afterSpendSave : Acc := applySpendSave afterCoupon.
Definition afterShipping : Acc := addShipping afterSpendSave.
Definition afterTax : Acc := applyTax afterShipping.

(** Lines 226-308 of [calculateFinalPrice]: the object handed to
    [setCalculationResults], computed from a form that passed
    [validateInputs]. *)
Definition evaluate : Result :=
  let a := afterTax in
  (* 7. Ensure no negative prices *)
  let runningTotal := max (of_Z 0) (runningTotal a) in
  let b := acc_breakdown a in
  let totalSavings :=
    roundToTwoDecimals
      (add (add (add (Breakdown.discountAmount b) (Breakdown.couponAmount b))
                (Breakdown.promotionAmount b))
           (Breakdown.spendSaveAmount b)) in
  let finalPrice := roundToTwoDecimals runningTotal in
  {| finalPrice := finalPrice; totalSavings := totalSavings; breakdown := b |}.

End Stages.

(** ** Component state *)

(** [calculationResults]: both prices are [null] until a calculation has
    succeeded (lines 118-130). *)
Record Results : Type := mkResults {
  res_finalPrice : option num;
  res_totalSavings : option num;
  res_breakdown : Breakdown.t
}.

Definition results_of (r : Result) : Results :=
  {| res_finalPrice := Some (finalPrice r);
     res_totalSavings := Some (totalSavings r);
     res_breakdown := breakdown r |}.

(** The state of the component that the calculation reads or writes (the
    expanded section and the animation values only drive the display and
    are left out).  The memoised [calculateFinalPrice] is rebuilt only when
    [form] changes, so the [addToHistory] it calls sees the currency of
    that render: [closureCurrency]. *)
Record State : Type := mkState {
  form : Form.t;
  errors : gmap string string;
  currency : string;
  closureCurrency : string;
  isCalculating : bool;
  history : list HistoryItem;
  calculationResults : Results
}.

Definition initial : State :=
  {| form := Form.initial; errors := ∅; currency := "USD";
     closureCurrency := "USD"; isCalculating := false; history := [];
     calculationResults :=
       {| res_finalPrice := None; res_totalSavings := None;
          res_breakdown := Breakdown.zero |} |}.

(** [validateInputs] (lines 163-215): stores the error object and returns
    whether it is empty. *)
Definition validateInputs (st : State) : bool * State :=
  (valid (form st),
   {| form := form st; errors := newErrors (form st); currency := currency st;
      closureCurrency := closureCurrency st; isCalculating := isCalculating st;
      history := history st; calculationResults := calculationResults st |}).

(** [addToHistory] (lines 317-329); [now] and [stamp] are what [Date.now()]
    and [new Date().toLocaleString()] return. *)
Definition addToHistory (now : Z) (stamp : string) (r : Result) (st : State) : State :=
  let historyItem :=
    {| item_id := now; item_timestamp := stamp;
       item_currency := closureCurrency st;
       item_finalPrice := finalPrice r; item_totalSavings := totalSavings r;
       item_originalPrice := Form.originalPrice (form st);
       item_breakdown := breakdown r |} in
  {| form := form st; errors := errors st; currency := currency st;
     closureCurrency := closureCurrency st; isCalculating := isCalculating st;
     history := take 10 (historyItem :: history st);
     calculationResults := calculationResults st |}.

(** [calculateFinalPrice] (lines 218-314). *)
Definition calculateFinalPrice (now : Z) (stamp : string) (st : State) : State :=
  let '(ok, st1) := validateInputs st in
  if negb ok then st1
  else
    let r := evaluate (form st1) in
    let st2 :=
      {| form := form st1; errors := errors st1; currency := currency st1;
         closureCurrency := closureCurrency st1; isCalculating := isCalculating st1;
         history := history st1; calculationResults := results_of r |} in
    let st3 := addToHistory now stamp r st2 in
    {| form := form st3; errors := errors st3; currency := currency st3;
       closureCurrency := closureCurrency st3; isCalculating := false;
       history := history st3; calculationResults := calculationResults st3 |}.

(** The text inputs wired to [handleInputChange] (lines 419-553). *)
Inductive TextField : Type :=
  | OriginalPrice | DiscountRate | ShippingFee | CouponValue | BuyX | GetY
  | ItemPrice | SpendAmount | SaveAmount | TaxRate.

Definition key_of (k : TextField) : string :=
  match k with
  | OriginalPrice => "originalPrice" | DiscountRate => "discountRate"
  | ShippingFee => "shippingFee" | CouponValue => "couponValue"
  | BuyX => "buyX" | GetY => "getY" | ItemPrice => "itemPrice"
  | SpendAmount => "spendAmount" | SaveAmount => "saveAmount"
  | TaxRate => "taxRate"
  end.

Definition set_text (k : TextField) (v : string) (f : Form.t) : Form.t :=
  let 'Form.mk op dr sf uc cv bx gy ip q sp sv tr := f in
  match k with
  | OriginalPrice => Form.mk v dr sf uc cv bx gy ip q sp sv tr
  | DiscountRate => Form.mk op v sf uc cv bx gy ip q sp sv tr
  | ShippingFee => Form.mk op dr v uc cv bx gy ip q sp sv tr
  | CouponValue => Form.mk op dr sf uc v bx gy ip q sp sv tr
  | BuyX => Form.mk op dr sf uc cv v gy ip q sp sv tr
  | GetY => Form.mk op dr sf uc cv bx v ip q sp sv tr
  | ItemPrice => Form.mk op dr sf uc cv bx gy v q sp sv tr
  | SpendAmount => Form.mk op dr sf uc cv bx gy ip q v sv tr
  | SaveAmount => Form.mk op dr sf uc cv bx gy ip q sp v tr
  | TaxRate => Form.mk op dr sf uc cv bx gy ip q sp sv v
  end.

Definition set_useCoupon (v : bool) (f : Form.t) : Form.t :=
  let 'Form.mk op dr sf _ cv bx gy ip q sp sv tr := f in
  Form.mk op dr sf v cv bx gy ip q sp sv tr.

(** The clearing of a field's error in [handleInputChange]
    (lines 140-146). *)
Definition clear_error (key : string) (e : gmap string string) : gmap string string :=
  match e !! key with
  | Some m => if truthy m then delete key e else e
  | None => e
  end.

(** What the user can do to the state. *)
Inductive Event : Type :=
  | ChangeText (k : TextField) (v : string)
  | ChangeUseCoupon (v : bool)
  | SetCurrency (c : string)
  | Calculate (now : Z) (stamp : string)
  | ResetForm.

Definition step (st : State) (e : Event) : State :=
  match e with
  | ChangeText k v =>
      (* handleInputChange, lines 133-147 *)
      {| form := set_text k v (form st);
         errors := clear_error (key_of k) (errors st);
         currency := currency st; closureCurrency := currency st;
         isCalculating := isCalculating st; history := history st;
         calculationResults := calculationResults st |}
  | ChangeUseCoupon v =>
      {| form := set_useCoupon v (form st);
         errors := clear_error "useCoupon" (errors st);
         currency := currency st; closureCurrency := currency st;
         isCalculating := isCalculating st; history := history st;
         calculationResults := calculationResults st |}
  | SetCurrency c =>
      {| form := form st; errors := errors st; currency := c;
         closureCurrency := closureCurrency st;
         isCalculating := isCalculating st; history := history st;
         calculationResults := calculationResults st |}
  | Calculate now stamp => calculateFinalPrice now stamp st
  | ResetForm =>
      (* resetForm, lines 332-353 *)
      {| form := Form.initial; errors := ∅; currency := currency st;
         closureCurrency := currency st;
         isCalculating := isCalculating st; history := history st;
         calculationResults := calculationResults st |}
  end.

Definition run (st : State) (es : list Event) : State := fold_left step es st.

(** A state is reachable when some sequence of events leads to it from the
    initial state. *)
Definition reachable (st : State) : Prop := exists es, st = run initial es.

(** ** Example forms *)

(** Only the price: the form after typing [p] into the first input. *)
Definition priced (p : string) : Form.t := set_text OriginalPrice p Form.initial.

(** A price of 50 and a coupon of 100. *)
Definition form_coupon_over : Form.t :=
  set_useCoupon true (set_text CouponValue "100" (priced "50")).

(** A price of 100, buy 2 get 1 free, items at 25. *)
Definition form_buy2_get1 : Form.t :=
  set_text ItemPrice "25" (set_text GetY "1" (set_text BuyX "2" (priced "100"))).


(** A price of 100 at 50% off, spend 80 save 10. *)
Definition form_threshold : Form.t :=
  set_text SaveAmount "10" (set_text SpendAmount "80"
    (set_text DiscountRate "50" (priced "100"))).

(** No price and a discount of 150%. *)
Definition form_two_errors : Form.t :=
  set_text DiscountRate "150" Form.initial.

(** A single space typed as the price. *)
Definition form_blank_price : Form.t := priced " ".

(** A price below one cent, buy 1 get 1 free on items at 1. *)
Definition form_subcent : Form.t :=
  set_text ItemPrice "1" (set_text GetY "1" (set_text BuyX "1" (priced "0.006"))).

(** The same with a coupon of 5. *)
Definition form_subcent_coupon : Form.t :=
  set_useCoupon true (set_text CouponValue "5" form_subcent).

(** A price of 10, a single space as "Buy X", 1 as "Get Y", items at 1. *)
Definition form_blank_buyX : Form.t :=
  set_text ItemPrice "1" (set_text GetY "1" (set_text BuyX " " (priced "10"))).

(** A state holding the given form, otherwise initial. *)
Definition state_of (f : Form.t) : State :=
  {| form := f; errors := ∅; currency := "USD"; closureCurrency := "USD";
     isCalculating := false; history := [];
     calculationResults := calculationResults initial |}.

(** ** Notions used by the statements *)

(** The part of the accumulator the four discount stages work on. *)
Definition savings_view (a : Acc) : num * num * num * num * num :=
  (runningTotal a,
   Breakdown.discountAmount (acc_breakdown a),
   Breakdown.couponAmount (acc_breakdown a),
   Breakdown.promotionAmount (acc_breakdown a),
   Breakdown.spendSaveAmount (acc_breakdown a)).

(** Two forms that differ at most in [shippingFee] and [taxRate]. *)
Definition same_discounts (f g : Form.t) : Prop :=
  Form.originalPrice f = Form.originalPrice g
  /\ Form.discountRate f = Form.discountRate g
  /\ Form.useCoupon f = Form.useCoupon g
  /\ Form.couponValue f = Form.couponValue g
  /\ Form.buyX f = Form.buyX g /\ Form.getY f = Form.getY g
  /\ Form.itemPrice f = Form.itemPrice g
  /\ Form.spendAmount f = Form.spendAmount g
  /\ Form.saveAmount f = Form.saveAmount g.

(** The entry a successful calculation adds. *)
Definition new_item (now : Z) (stamp : string) (st : State) : HistoryItem :=
  let r := evaluate (form st) in
  {| item_id := now; item_timestamp := stamp;
     item_currency := closureCurrency st;
     item_finalPrice := finalPrice r; item_totalSavings := totalSavings r;
     item_originalPrice := Form.originalPrice (form st);
     item_breakdown := breakdown r |}.

(** No field parses to an infinity, and the price and the shipping fee
    that the calculation uses are numbers. *)
Definition finite_inputs (f : Form.t) : Prop :=
  is_fin (basePrice f) = true
  /\ is_fin (shipping f) = true
  /\ is_inf (taxRate f) = false
  /\ is_inf (parseFloat (Form.discountRate f)) = false
  /\ is_inf (parseFloat (Form.couponValue f)) = false
  /\ is_inf (parseFloat (Form.buyX f)) = false
  /\ is_inf (parseFloat (Form.getY f)) = false
  /\ is_inf (parseFloat (Form.itemPrice f)) = false
  /\ is_inf (parseFloat (Form.spendAmount f)) = false
  /\ is_inf (parseFloat (Form.saveAmount f)) = false.

(** [v] is a finite number that is at least 0. *)
Definition nonneg (v : num) : Prop := is_fin v = true /\ ge v (of_Z 0) = true.

(** [v] is a non-negative whole number of hundredths. *)
Definition whole_cents (v : num) : Prop :=
  exists k : Z, (0 <= k)%Z /\ same v (Fin (inject_Z k / inject_Z 100)).

(** ** The two conversions on sample strings *)

(** [Number] (behind [isNaN]) and [parseFloat] agree on plain decimals and
    differ on white space, on trailing text and on hexadecimal literals. *)
Example conversions_on_samples :
  same (parseFloat "12.50") (Fin (25 # 2)) /\ same (toNumber "12.50") (Fin (25 # 2))
  /\ same (parseFloat " 1e3 ") (of_Z 1000) /\ same (toNumber " 1e3 ") (of_Z 1000)
  /\ parseFloat "" = NaN /\ toNumber "" = Fin 0
  /\ parseFloat " " = NaN /\ toNumber " " = Fin 0
  /\ same (parseFloat "12abc") (of_Z 12) /\ toNumber "12abc" = NaN
  /\ same (parseFloat "0x10") (of_Z 0) /\ same (toNumber "0x10") (of_Z 16)
  /\ parseFloat "abc" = NaN /\ toNumber "abc" = NaN
  /\ parseFloat "." = NaN /\ same (parseFloat "-.5") (Fin (-1 # 2))
  /\ parseFloat "Infinity" = Inf false /\ toNumber "-Infinity" = Inf true.
Proof.
  repeat split; vm_compute; reflexivity.
Qed.

(** ** Validation: the error object *)

Section ErrorObject.
Variable f : Form.t.

(** Reading a key of an object after a conditional assignment. *)
Lemma lookup_cond_insert (c : bool) (k j v : string) (m : gmap string string) :
  (if c then <[k := v]> m else m) !! j
  = if c && bool_decide (k = j) then Some v else m !! j.
Proof.
  destruct c; simpl; [|reflexivity].
  case_bool_decide as E.
  - subst j. apply lookup_insert_eq.
  - by apply lookup_insert_ne.
Qed.

Lemma lookup_cond_insert2 (c : bool) (k1 k2 j v : string) (m : gmap string string) :
  (if c then <[k2 := v]> (<[k1 := v]> m) else m) !! j
  = if c && (bool_decide (k1 = j) || bool_decide (k2 = j)) then Some v else m !! j.
Proof.
  destruct c; simpl; [|reflexivity].
  rewrite !lookup_insert.
  repeat case_decide; repeat case_bool_decide; simpl; congruence.
Qed.

(** What [newErrors] holds under any key. *)
Lemma newErrors_lookup (j : string) :
  newErrors f !! j =
    if bad_spendSave f && (bool_decide ("spendAmount" = j) || bool_decide ("saveAmount" = j))
    then Some msg_spendSave
    else if bad_itemPrice f && bool_decide ("itemPrice" = j) then Some msg_itemPrice
    else if bad_buyXgetY f && (bool_decide ("buyX" = j) || bool_decide ("getY" = j))
    then Some msg_buyXgetY
    else if bad_couponValue f && bool_decide ("couponValue" = j) then Some msg_couponValue
    else if bad_taxRate f && bool_decide ("taxRate" = j) then Some msg_taxRate
    else if bad_shippingFee f && bool_decide ("shippingFee" = j) then Some msg_shippingFee
    else if bad_discountRate f && bool_decide ("discountRate" = j) then Some msg_discountRate
    else if bad_originalPrice f && bool_decide ("originalPrice" = j) then Some msg_originalPrice
    else None.
Proof.
  unfold newErrors.
  rewrite lookup_cond_insert2, lookup_cond_insert, lookup_cond_insert2.
  rewrite !lookup_cond_insert. by rewrite lookup_empty.
Qed.

Ltac read_key := rewrite newErrors_lookup; simpl; rewrite ?andb_false_r, ?andb_true_r; simpl.

Lemma error_originalPrice :
  newErrors f !! "originalPrice" = if bad_originalPrice f then Some msg_originalPrice else None.
Proof. read_key. reflexivity. Qed.

Lemma error_discountRate :
  newErrors f !! "discountRate" = if bad_discountRate f then Some msg_discountRate else None.
Proof. read_key. reflexivity. Qed.

Lemma error_shippingFee :
  newErrors f !! "shippingFee" = if bad_shippingFee f then Some msg_shippingFee else None.
Proof. read_key. reflexivity. Qed.

Lemma error_taxRate :
  newErrors f !! "taxRate" = if bad_taxRate f then Some msg_taxRate else None.
Proof. read_key. reflexivity. Qed.

Lemma error_couponValue :
  newErrors f !! "couponValue" = if bad_couponValue f then Some msg_couponValue else None.
Proof. read_key. reflexivity. Qed.

Lemma error_buyX :
  newErrors f !! "buyX" = if bad_buyXgetY f then Some msg_buyXgetY else None.
Proof. read_key. reflexivity. Qed.

Lemma error_getY :
  newErrors f !! "getY" = if bad_buyXgetY f then Some msg_buyXgetY else None.
Proof. read_key. reflexivity. Qed.

Lemma error_itemPrice :
  newErrors f !! "itemPrice" = if bad_itemPrice f then Some msg_itemPrice else None.
Proof. read_key. reflexivity. Qed.

Lemma error_spendAmount :
  newErrors f !! "spendAmount" = if bad_spendSave f then Some msg_spendSave else None.
Proof. read_key. reflexivity. Qed.

Lemma error_saveAmount :
  newErrors f !! "saveAmount" = if bad_spendSave f then Some msg_spendSave else None.
Proof. read_key. reflexivity. Qed.

(** The form is valid exactly when none of the eight checks fails. *)
Lemma valid_iff :
  valid f = true <->
  bad_originalPrice f = false /\ bad_discountRate f = false
  /\ bad_shippingFee f = false /\ bad_taxRate f = false
  /\ bad_couponValue f = false /\ bad_buyXgetY f = false
  /\ bad_itemPrice f = false /\ bad_spendSave f = false.
Proof.
  unfold valid. rewrite bool_decide_eq_true, map_size_empty_iff.
  split.
  - intros E.
    pose proof error_originalPrice as H1. pose proof error_discountRate as H2.
    pose proof error_shippingFee as H3. pose proof error_taxRate as H4.
    pose proof error_couponValue as H5. pose proof error_buyX as H6.
    pose proof error_itemPrice as H7. pose proof error_spendAmount as H8.
    rewrite E, lookup_empty in H1, H2, H3, H4, H5, H6, H7, H8.
    repeat split;
      match goal with |- ?b = false => destruct b; [discriminate | reflexivity] end.
  - intros (H1 & H2 & H3 & H4 & H5 & H6 & H7 & H8).
    unfold newErrors. rewrite H1, H2, H3, H4, H5, H6, H7, H8. reflexivity.
Qed.

End ErrorObject.

(** ** Arithmetic of the number model *)

Local Open Scope Q_scope.

Lemma Qltb_true (a b : Q) : Qltb a b = true <-> a < b.
Proof.
  unfold Qltb. rewrite negb_true_iff. split.
  - intros H. apply Qnot_le_lt. intros L. apply Qle_bool_iff in L. congruence.
  - intros H. destruct (Qle_bool b a) eqn:E; [|reflexivity].
    apply Qle_bool_iff in E. exfalso. exact (Qlt_not_le _ _ H E).
Qed.

Lemma Qltb_false (a b : Q) : Qltb a b = false <-> b <= a.
Proof.
  unfold Qltb. rewrite negb_false_iff. apply Qle_bool_iff.
Qed.

Lemma Qis0_true (a : Q) : Qis0 a = true <-> a == 0.
Proof. apply Qeq_bool_iff. Qed.

Lemma Qis0_false (a : Q) : Qis0 a = false <-> ~ a == 0.
Proof.
  unfold Qis0. split.
  - apply Qeq_bool_neq.
  - intros H. destruct (Qeq_bool a 0) eqn:E; [|reflexivity].
    apply Qeq_bool_iff in E. contradiction.
Qed.

#[global] Instance Qltb_comp : Proper (Qeq ==> Qeq ==> eq) Qltb.
Proof. intros a a' Ha b b' Hb. unfold Qltb. by rewrite Ha, Hb. Qed.

#[global] Instance Qis0_comp : Proper (Qeq ==> eq) Qis0.
Proof. intros a a' Ha. unfold Qis0. by rewrite Ha. Qed.

Lemma same_refl (a : num) : same a a.
Proof. destruct a; simpl; auto with qarith. Qed.

Lemma same_sym (a b : num) : same a b -> same b a.
Proof. destruct a, b; simpl; auto with qarith. Qed.

Lemma same_trans (a b c : num) : same a b -> same b c -> same a c.
Proof.
  destruct a, b, c; simpl; try tauto; try congruence.
  intros H1 H2. by rewrite H1.
Qed.

#[global] Instance same_equiv : Equivalence same.
Proof.
  split; [exact same_refl | exact same_sym | exact same_trans].
Qed.

Lemma eq_same (a b : num) : a = b -> same a b.
Proof. intros ->. apply same_refl. Qed.

#[global] Instance Fin_same : Proper (Qeq ==> same) Fin.
Proof. intros x y H. exact H. Qed.

Ltac by_cases :=
  repeat match goal with
  | a : num |- _ => destruct a
  end; simpl in *; try tauto; subst;
  repeat first
    [ reflexivity
    | match goal with H : (_ == _)%Q |- _ => rewrite H end
    | match goal with |- context [if ?c then _ else _] => destruct c end ].

#[global] Instance neg_same : Proper (same ==> same) neg.
Proof. intros a a' H. by_cases. Qed.

#[global] Instance add_same : Proper (same ==> same ==> same) add.
Proof. intros a a' Ha b b' Hb. by_cases. Qed.

#[global] Instance sub_same : Proper (same ==> same ==> same) sub.
Proof. intros a a' Ha b b' Hb. unfold sub. by rewrite Ha, Hb. Qed.

#[global] Instance mul_same : Proper (same ==> same ==> same) mul.
Proof. intros a a' Ha b b' Hb. by_cases. Qed.

#[global] Instance div_same : Proper (same ==> same ==> same) div.
Proof. intros a a' Ha b b' Hb. by_cases. Qed.

#[global] Instance lt_same : Proper (same ==> same ==> eq) lt.
Proof. intros a a' Ha b b' Hb. by_cases. Qed.

#[global] Instance le_same : Proper (same ==> same ==> eq) le.
Proof. intros a a' Ha b b' Hb. by_cases. Qed.

#[global] Instance min_same : Proper (same ==> same ==> same) min.
Proof.
  intros a a' Ha b b' Hb.
  pose proof (le_same _ _ Ha _ _ Hb) as E.
  destruct a, a', b, b'; simpl in *; try tauto; subst; try reflexivity;
    try rewrite E; repeat case_match; simpl; auto.
Qed.

#[global] Instance max_same : Proper (same ==> same ==> same) max.
Proof.
  intros a a' Ha b b' Hb.
  pose proof (le_same _ _ Ha _ _ Hb) as E.
  destruct a, a', b, b'; simpl in *; try tauto; subst; try reflexivity;
    try rewrite E; repeat case_match; simpl; auto.
Qed.

#[global] Instance round_same : Proper (same ==> same) round.
Proof.
  intros a a' H. destruct a, a'; simpl in H; try tauto; subst; try reflexivity.
  unfold round, of_Z. apply Fin_same. by rewrite H.
Qed.

#[global] Instance floor_same : Proper (same ==> same) floor.
Proof.
  intros a a' H. destruct a, a'; simpl in H; try tauto; subst; try reflexivity.
  unfold floor, of_Z. apply Fin_same. by rewrite H.
Qed.

#[global] Instance ceil_same : Proper (same ==> same) ceil.
Proof.
  intros a a' H. destruct a, a'; simpl in H; try tauto; subst; try reflexivity.
  unfold ceil, of_Z. apply Fin_same. by rewrite H.
Qed.

#[global] Instance roundToTwoDecimals_same : Proper (same ==> same) roundToTwoDecimals.
Proof. intros a a' H. unfold roundToTwoDecimals. by rewrite H. Qed.

(** Rounding a finite number gives a finite number. *)
Lemma roundToTwoDecimals_Fin (x : Q) :
  roundToTwoDecimals (Fin x)
  = Fin (inject_Z (Qfloor ((x + (1 # 4503599627370496)) * inject_Z 100 + (1 # 2)))
         / inject_Z 100).
Proof. reflexivity. Qed.

(** [a * (t / 100)] and [a * t / 100] agree for a positive rate [t]. *)
Lemma mul_div_100 (a t : num) :
  gt t (of_Z 0) = true ->
  same (mul a (div t (of_Z 100))) (div (mul a t) (of_Z 100)).
Proof.
  unfold gt. destruct t as [|s|q]; simpl; try discriminate.
  - destruct s; try discriminate. intros _.
    destruct a as [|s'|x]; simpl; auto.
    + by destruct s'.
    + destruct (Qis0 x); simpl; auto. by destruct (Qltb x 0).
  - intros H. apply Qltb_true in H. change (inject_Z 0) with 0 in H.
    assert (N0 : Qis0 (q / inject_Z 100) = false).
    { apply Qis0_false. intros E. 
      assert (q == 0) by (rewrite <- (Qmult_div_r q (inject_Z 100)), E by discriminate; ring).
      lra. }
    assert (P0 : Qltb (q / inject_Z 100) 0 = false).
    { apply Qltb_false. apply Qle_shift_div_l; [reflexivity | lra]. }
    assert (Nq : Qis0 q = false) by (apply Qis0_false; lra).
    assert (Pq : Qltb q 0 = false) by (apply Qltb_false; lra).
    destruct a as [|s'|x]; simpl; auto.
    + rewrite N0, P0, Nq, Pq. simpl. by destruct s'.
    + unfold Qdiv. ring.
Qed.

Local Close Scope Q_scope.

(** ** The stages and the fields they leave alone *)

Ltac stage_cases :=
  unfold applyTax, addShipping, applySpendSave, applyCoupon, applyBuyXGetY,
    applyDiscount;
  repeat case_match; reflexivity.

Section StageFrames.
Variable f : Form.t.
Implicit Type a : Acc.
Import Breakdown.

Lemma applyDiscount_frame a :
  let b := acc_breakdown a in let b' := acc_breakdown (applyDiscount f a) in
  basePrice b' = basePrice b /\ couponAmount b' = couponAmount b
  /\ promotionAmount b' = promotionAmount b
  /\ spendSaveAmount b' = spendSaveAmount b
  /\ shippingFee b' = shippingFee b /\ taxAmount b' = taxAmount b.
Proof. repeat split; stage_cases. Qed.

Lemma applyBuyXGetY_frame a :
  let b := acc_breakdown a in let b' := acc_breakdown (applyBuyXGetY f a) in
  basePrice b' = basePrice b /\ discountAmount b' = discountAmount b
  /\ couponAmount b' = couponAmount b
  /\ spendSaveAmount b' = spendSaveAmount b
  /\ shippingFee b' = shippingFee b /\ taxAmount b' = taxAmount b.
Proof. repeat split; stage_cases. Qed.

Lemma applyCoupon_frame a :
  let b := acc_breakdown a in let b' := acc_breakdown (applyCoupon f a) in
  basePrice b' = basePrice b /\ discountAmount b' = discountAmount b
  /\ promotionAmount b' = promotionAmount b
  /\ spendSaveAmount b' = spendSaveAmount b
  /\ shippingFee b' = shippingFee b /\ taxAmount b' = taxAmount b.
Proof. repeat split; stage_cases. Qed.

Lemma applySpendSave_frame a :
  let b := acc_breakdown a in let b' := acc_breakdown (applySpendSave f a) in
  basePrice b' = basePrice b /\ discountAmount b' = discountAmount b
  /\ couponAmount b' = couponAmount b
  /\ promotionAmount b' = promotionAmount b
  /\ shippingFee b' = shippingFee b /\ taxAmount b' = taxAmount b.
Proof. repeat split; stage_cases. Qed.

Lemma applyTax_frame a :
  let b := acc_breakdown a in let b' := acc_breakdown (applyTax f a) in
  basePrice b' = basePrice b /\ discountAmount b' = discountAmount b
  /\ couponAmount b' = couponAmount b
  /\ promotionAmount b' = promotionAmount b
  /\ spendSaveAmount b' = spendSaveAmount b
  /\ shippingFee b' = shippingFee b.
Proof. repeat split; stage_cases. Qed.

(** The breakdown fields of the result, stage by stage. *)
Lemma result_discountAmount :
  discountAmount (breakdown (evaluate f)) = discountAmount (acc_breakdown (afterDiscount f)).
Proof.
  unfold evaluate, afterTax, afterShipping, afterSpendSave, afterCoupon,
    afterPromotion. simpl.
  destruct (applyTax_frame (addShipping f (applySpendSave f (applyCoupon f
    (applyBuyXGetY f (afterDiscount f)))))) as (_ & -> & _).
  simpl.
  destruct (applySpendSave_frame (applyCoupon f (applyBuyXGetY f (afterDiscount f))))
    as (_ & -> & _).
  destruct (applyCoupon_frame (applyBuyXGetY f (afterDiscount f))) as (_ & -> & _).
  destruct (applyBuyXGetY_frame (afterDiscount f)) as (_ & -> & _).
  reflexivity.
Qed.

Lemma result_promotionAmount :
  promotionAmount (breakdown (evaluate f))
  = promotionAmount (acc_breakdown (afterPromotion f)).
Proof.
  unfold evaluate, afterTax, afterShipping, afterSpendSave, afterCoupon. simpl.
  destruct (applyTax_frame (addShipping f (applySpendSave f (applyCoupon f
    (afterPromotion f))))) as (_ & _ & _ & -> & _).
  simpl.
  destruct (applySpendSave_frame (applyCoupon f (afterPromotion f)))
    as (_ & _ & _ & -> & _).
  destruct (applyCoupon_frame (afterPromotion f)) as (_ & _ & -> & _).
  reflexivity.
Qed.

Lemma result_couponAmount :
  couponAmount (breakdown (evaluate f)) = couponAmount (acc_breakdown (afterCoupon f)).
Proof.
  unfold evaluate, afterTax, afterShipping, afterSpendSave. simpl.
  destruct (applyTax_frame (addShipping f (applySpendSave f (afterCoupon f))))
    as (_ & _ & -> & _).
  simpl.
  destruct (applySpendSave_frame (afterCoupon f)) as (_ & _ & -> & _).
  reflexivity.
Qed.

Lemma result_spendSaveAmount :
  spendSaveAmount (breakdown (evaluate f))
  = spendSaveAmount (acc_breakdown (afterSpendSave f)).
Proof.
  unfold evaluate, afterTax, afterShipping. simpl.
  destruct (applyTax_frame (addShipping f (afterSpendSave f)))
    as (_ & _ & _ & _ & -> & _).
  reflexivity.
Qed.

Lemma result_basePrice :
  basePrice (breakdown (evaluate f)) = parseFloat (Form.originalPrice f).
Proof.
  unfold evaluate, afterTax, afterShipping, afterSpendSave, afterCoupon,
    afterPromotion, afterDiscount. simpl.
  destruct (applyTax_frame (addShipping f (applySpendSave f (applyCoupon f
    (applyBuyXGetY f (applyDiscount f (start f))))))) as (-> & _).
  simpl.
  destruct (applySpendSave_frame (applyCoupon f (applyBuyXGetY f
    (applyDiscount f (start f))))) as (-> & _).
  destruct (applyCoupon_frame (applyBuyXGetY f (applyDiscount f (start f))))
    as (-> & _).
  destruct (applyBuyXGetY_frame (applyDiscount f (start f))) as (-> & _).
  destruct (applyDiscount_frame (start f)) as (-> & _).
  reflexivity.
Qed.

Lemma result_shippingFee :
  shippingFee (breakdown (evaluate f)) = shipping f.
Proof.
  unfold evaluate, afterTax, afterShipping, afterSpendSave, afterCoupon,
    afterPromotion, afterDiscount. simpl.
  destruct (applyTax_frame (addShipping f (applySpendSave f (applyCoupon f
    (applyBuyXGetY f (applyDiscount f (start f))))))) as (_ & _ & _ & _ & _ & ->).
  simpl.
  destruct (applySpendSave_frame (applyCoupon f (applyBuyXGetY f
    (applyDiscount f (start f))))) as (_ & _ & _ & _ & -> & _).
  destruct (applyCoupon_frame (applyBuyXGetY f (applyDiscount f (start f))))
    as (_ & _ & _ & _ & -> & _).
  destruct (applyBuyXGetY_frame (applyDiscount f (start f)))
    as (_ & _ & _ & _ & -> & _).
  destruct (applyDiscount_frame (start f)) as (_ & _ & _ & _ & -> & _).
  reflexivity.
Qed.

Lemma couponAmount_before :
  couponAmount (acc_breakdown (afterPromotion f)) = of_Z 0.
Proof.
  unfold afterPromotion, afterDiscount.
  destruct (applyBuyXGetY_frame (applyDiscount f (start f))) as (_ & _ & -> & _).
  destruct (applyDiscount_frame (start f)) as (_ & -> & _).
  reflexivity.
Qed.

Lemma result_taxAmount :
  taxAmount (breakdown (evaluate f)) = taxAmount (acc_breakdown (afterTax f)).
Proof. reflexivity. Qed.

(** Before its stage, a field still has the value [start] gave it. *)
Lemma spendSaveAmount_before :
  spendSaveAmount (acc_breakdown (afterCoupon f)) = of_Z 0.
Proof.
  unfold afterCoupon, afterPromotion, afterDiscount.
  destruct (applyCoupon_frame (applyBuyXGetY f (applyDiscount f (start f))))
    as (_ & _ & _ & -> & _).
  destruct (applyBuyXGetY_frame (applyDiscount f (start f))) as (_ & _ & _ & -> & _).
  destruct (applyDiscount_frame (start f)) as (_ & _ & _ & -> & _).
  reflexivity.
Qed.

Lemma promotionAmount_before :
  promotionAmount (acc_breakdown (afterDiscount f)) = of_Z 0.
Proof.
  unfold afterDiscount.
  destruct (applyDiscount_frame (start f)) as (_ & _ & -> & _).
  reflexivity.
Qed.

Lemma taxAmount_before :
  taxAmount (acc_breakdown (afterShipping f)) = of_Z 0.
Proof.
  unfold afterShipping, afterSpendSave, afterCoupon, afterPromotion, afterDiscount.
  simpl.
  destruct (applySpendSave_frame (applyCoupon f (applyBuyXGetY f (applyDiscount f (start f)))))
    as (_ & _ & _ & _ & _ & ->).
  destruct (applyCoupon_frame (applyBuyXGetY f (applyDiscount f (start f))))
    as (_ & _ & _ & _ & _ & ->).
  destruct (applyBuyXGetY_frame (applyDiscount f (start f))) as (_ & _ & _ & _ & _ & ->).
  destruct (applyDiscount_frame (start f)) as (_ & _ & _ & _ & _ & ->).
  reflexivity.
Qed.

End StageFrames.

(** ** Validation reports every failed check *)

(** The structure of [validateInputs]: for every state it stores an error
    object in which each of the ten keys is present exactly when the
    condition of the [if] that assigns it holds, whatever the other seven
    conditions do, and no other key is present; it returns [true] exactly
    when that object is empty.  (What each condition lets through is
    another matter: see the forms with a blank price below.) *)
Theorem validateInputs_reports_all_failures (st : State) :
  let f := form st in
  let e := errors (snd (validateInputs st)) in
  e !! "originalPrice" = (if bad_originalPrice f then Some msg_originalPrice else None)
  /\ e !! "discountRate" = (if bad_discountRate f then Some msg_discountRate else None)
  /\ e !! "shippingFee" = (if bad_shippingFee f then Some msg_shippingFee else None)
  /\ e !! "taxRate" = (if bad_taxRate f then Some msg_taxRate else None)
  /\ e !! "couponValue" = (if bad_couponValue f then Some msg_couponValue else None)
  /\ e !! "buyX" = (if bad_buyXgetY f then Some msg_buyXgetY else None)
  /\ e !! "getY" = (if bad_buyXgetY f then Some msg_buyXgetY else None)
  /\ e !! "itemPrice" = (if bad_itemPrice f then Some msg_itemPrice else None)
  /\ e !! "spendAmount" = (if bad_spendSave f then Some msg_spendSave else None)
  /\ e !! "saveAmount" = (if bad_spendSave f then Some msg_spendSave else None)
  /\ (forall j : string,
        j ∉ ["originalPrice"; "discountRate"; "shippingFee"; "taxRate";
             "couponValue"; "buyX"; "getY"; "itemPrice"; "spendAmount";
             "saveAmount"] -> e !! j = None)
  /\ (fst (validateInputs st) = true <-> e = ∅)
  /\ (fst (validateInputs st) = true <->
        bad_originalPrice f = false /\ bad_discountRate f = false
        /\ bad_shippingFee f = false /\ bad_taxRate f = false
        /\ bad_couponValue f = false /\ bad_buyXgetY f = false
        /\ bad_itemPrice f = false /\ bad_spendSave f = false)
  /\ (bad_originalPrice f = true -> bad_discountRate f = true ->
        e !! "originalPrice" = Some msg_originalPrice
        /\ e !! "discountRate" = Some msg_discountRate)
  /\ newErrors form_two_errors
     = {[ "originalPrice" := msg_originalPrice; "discountRate" := msg_discountRate ]}.
Proof.
  simpl.
  split; [apply error_originalPrice|]. split; [apply error_discountRate|].
  split; [apply error_shippingFee|]. split; [apply error_taxRate|].
  split; [apply error_couponValue|]. split; [apply error_buyX|].
  split; [apply error_getY|]. split; [apply error_itemPrice|].
  split; [apply error_spendAmount|]. split; [apply error_saveAmount|].
  split.
  { intros j Hj. rewrite newErrors_lookup.
    repeat (rewrite not_elem_of_cons in Hj; destruct Hj as [? Hj]).
    repeat (rewrite (bool_decide_eq_false_2 (_ = j)) by congruence).
    simpl. by rewrite !andb_false_r. }
  split.
  { unfold valid. rewrite bool_decide_eq_true. apply map_size_empty_iff. }
  split; [apply valid_iff|].
  split.
  { intros H1 H2. rewrite error_originalPrice, error_discountRate, H1, H2. done. }
  apply map_eq. intros j. rewrite newErrors_lookup.
  change (bad_spendSave form_two_errors) with false.
  change (bad_itemPrice form_two_errors) with false.
  change (bad_buyXgetY form_two_errors) with false.
  change (bad_couponValue form_two_errors) with false.
  change (bad_taxRate form_two_errors) with false.
  change (bad_shippingFee form_two_errors) with false.
  assert (bad_discountRate form_two_errors = true) as -> by (vm_compute; reflexivity).
  assert (bad_originalPrice form_two_errors = true) as -> by (vm_compute; reflexivity).
  cbn [andb orb].
  destruct (decide ("originalPrice" = j)) as [<-|N1]; [vm_compute; reflexivity|].
  destruct (decide ("discountRate" = j)) as [<-|N2]; [vm_compute; reflexivity|].
  rewrite lookup_insert_ne, lookup_singleton_ne by done.
  by rewrite !bool_decide_eq_false_2 by done.
Qed.

(** ** The discount stages do not read the shipping fee or the tax rate *)

Section SavingsView.
Variables f g : Form.t.
Hypothesis agree : same_discounts f g.

Ltac view_step :=
  intros EV; unfold savings_view in *;
  repeat match goal with a : Acc |- _ => destruct a as [? []] end;
  simpl in *; injection EV as -> -> -> -> ->;
  repeat case_match; reflexivity.

Lemma start_view : savings_view (start f) = savings_view (start g).
Proof.
  destruct agree as (E & _). unfold savings_view, start, basePrice. simpl.
  by rewrite E.
Qed.

Lemma applyDiscount_view a a' :
  savings_view a = savings_view a' ->
  savings_view (applyDiscount f a) = savings_view (applyDiscount g a').
Proof.
  destruct agree as (_ & E & _).
  unfold applyDiscount, discount_applies. rewrite E. view_step.
Qed.

Lemma applyBuyXGetY_view a a' :
  savings_view a = savings_view a' ->
  savings_view (applyBuyXGetY f a) = savings_view (applyBuyXGetY g a').
Proof.
  destruct agree as (E0 & _ & _ & _ & E1 & E2 & E3 & _).
  unfold applyBuyXGetY, promotion_applies, freeItemsValue, freeItemsCount,
    quantity, singleItemPrice, basePrice.
  rewrite E0, E1, E2, E3. view_step.
Qed.

Lemma applyCoupon_view a a' :
  savings_view a = savings_view a' ->
  savings_view (applyCoupon f a) = savings_view (applyCoupon g a').
Proof.
  destruct agree as (_ & _ & E1 & E2 & _).
  unfold applyCoupon, coupon_applies. rewrite E1, E2. view_step.
Qed.

Lemma applySpendSave_view a a' :
  savings_view a = savings_view a' ->
  savings_view (applySpendSave f a) = savings_view (applySpendSave g a').
Proof.
  destruct agree as (E0 & _ & _ & _ & _ & _ & _ & E1 & E2).
  unfold applySpendSave, spendSave_applies, basePrice.
  rewrite E0, E1, E2. view_step.
Qed.

Lemma afterSpendSave_view :
  savings_view (afterSpendSave f) = savings_view (afterSpendSave g).
Proof.
  unfold afterSpendSave, afterCoupon, afterPromotion, afterDiscount.
  auto using applySpendSave_view, applyCoupon_view, applyBuyXGetY_view,
    applyDiscount_view, start_view.
Qed.

End SavingsView.

(** [totalSavings] is read off the view after the fourth stage. *)
Lemma totalSavings_view (f : Form.t) :
  totalSavings (evaluate f)
  = let '(_, d, c, p, s) := savings_view (afterSpendSave f) in
    roundToTwoDecimals (add (add (add d c) p) s).
Proof.
  unfold savings_view.
  change (totalSavings (evaluate f)) with
    (roundToTwoDecimals
       (add (add (add (Breakdown.discountAmount (breakdown (evaluate f)))
                      (Breakdown.couponAmount (breakdown (evaluate f))))
                 (Breakdown.promotionAmount (breakdown (evaluate f))))
            (Breakdown.spendSaveAmount (breakdown (evaluate f))))).
  rewrite result_discountAmount, result_couponAmount, result_promotionAmount,
    result_spendSaveAmount.
  unfold afterSpendSave, afterCoupon, afterPromotion.
  destruct (applySpendSave_frame f (applyCoupon f (applyBuyXGetY f (afterDiscount f))))
    as (_ & -> & -> & -> & _).
  destruct (applyCoupon_frame f (applyBuyXGetY f (afterDiscount f)))
    as (_ & -> & -> & _).
  destruct (applyBuyXGetY_frame f (afterDiscount f)) as (_ & -> & _).
  reflexivity.
Qed.

Lemma totalSavings_same_discounts (f g : Form.t) :
  same_discounts f g -> totalSavings (evaluate f) = totalSavings (evaluate g).
Proof.
  intros H. rewrite !totalSavings_view. by rewrite (afterSpendSave_view f g H).
Qed.

(** C7: for every form, the [totalSavings] of the result is
    [roundToTwoDecimals] of the sum of the [discountAmount], [couponAmount],
    [promotionAmount] and [spendSaveAmount] fields of the same result, and
    it does not change with the shipping fee or the tax rate. *)
Theorem totalSavings_spec (f : Form.t) :
  let r := evaluate f in
  let b := breakdown r in
  totalSavings r
  = roundToTwoDecimals
      (add (add (add (Breakdown.discountAmount b) (Breakdown.couponAmount b))
                (Breakdown.promotionAmount b))
           (Breakdown.spendSaveAmount b))
  /\ (forall v, totalSavings (evaluate (set_text ShippingFee v f)) = totalSavings r)
  /\ (forall v, totalSavings (evaluate (set_text TaxRate v f)) = totalSavings r).
Proof.
  split; [reflexivity|].
  split; intros v; apply totalSavings_same_discounts; destruct f;
    repeat split; reflexivity.
Qed.

(** ** Spend and save *)

(** C8: for every form, the spend-and-save stage applies exactly when
    [spendAmount] and [saveAmount] are both non-empty and parse to positive
    numbers and the parsed [originalPrice] (not the running total) is at
    least [spendAmount]; when it applies it takes
    [min(runningTotal, saveAmount)] off the running total and records it as
    [spendSaveAmount]; otherwise the running total is unchanged and
    [spendSaveAmount] is 0.  With a price of 100 at 50% off, "spend 80 save
    10" applies although the running total is 50. *)
Theorem spendSave_stage_spec (f : Form.t) :
  let a := afterCoupon f in
  let saveAmount := min (runningTotal a) (parseFloat (Form.saveAmount f)) in
  spendSave_applies f
  = truthy (Form.spendAmount f) && truthy (Form.saveAmount f)
    && gt (parseFloat (Form.spendAmount f)) (of_Z 0)
    && gt (parseFloat (Form.saveAmount f)) (of_Z 0)
    && ge (parseFloat (Form.originalPrice f)) (parseFloat (Form.spendAmount f))
  /\ runningTotal (afterSpendSave f)
     = (if spendSave_applies f then sub (runningTotal a) saveAmount
        else runningTotal a)
  /\ Breakdown.spendSaveAmount (breakdown (evaluate f))
     = (if spendSave_applies f then saveAmount else of_Z 0)
  /\ spendSave_applies form_threshold = true
  /\ same (runningTotal (afterCoupon form_threshold)) (of_Z 50)
  /\ same (Breakdown.spendSaveAmount (breakdown (evaluate form_threshold))) (of_Z 10).
Proof.
  split; [reflexivity|].
  split.
  { unfold afterSpendSave, applySpendSave. by destruct (spendSave_applies f). }
  split.
  { rewrite result_spendSaveAmount.
    pose proof (spendSaveAmount_before f) as E.
    unfold afterSpendSave, applySpendSave.
    destruct (spendSave_applies f); [reflexivity | exact E]. }
  split; [vm_compute; reflexivity|].
  split; vm_compute; reflexivity.
Qed.

(** ** History *)

Local Open Scope nat_scope.

Lemma calculate_valid (now : Z) (stamp : string) (st : State) :
  valid (form st) = true ->
  calculateFinalPrice now stamp st
  = {| form := form st; errors := newErrors (form st); currency := currency st;
       closureCurrency := closureCurrency st; isCalculating := false;
       history := take 10 (new_item now stamp st :: history st);
       calculationResults := results_of (evaluate (form st)) |}.
Proof.
  intros V. unfold calculateFinalPrice, validateInputs. rewrite V. reflexivity.
Qed.

Lemma calculate_invalid (now : Z) (stamp : string) (st : State) :
  valid (form st) = false ->
  calculateFinalPrice now stamp st
  = {| form := form st; errors := newErrors (form st); currency := currency st;
       closureCurrency := closureCurrency st; isCalculating := isCalculating st;
       history := history st; calculationResults := calculationResults st |}.
Proof.
  intros V. unfold calculateFinalPrice, validateInputs. rewrite V. reflexivity.
Qed.




Local Close Scope nat_scope.

(** ** What a failed price check guarantees *)

(** Whenever the first check of [validateInputs] fails (the price is empty,
    [isNaN] holds of it, or it parses to a number at most 0) the error is
    stored under [originalPrice] and the calculation stops there: the
    results and the history are untouched. *)
Lemma rejected_price_stops_calculation (st : State) (now : Z) (stamp : string) :
  bad_originalPrice (form st) = true ->
  let st' := calculateFinalPrice now stamp st in
  errors st' !! "originalPrice" = Some msg_originalPrice
  /\ calculationResults st' = calculationResults st
  /\ history st' = history st
  /\ form st' = form st.
Proof.
  intros B.
  assert (valid (form st) = false) as V.
  { destruct (valid (form st)) eqn:V; [|reflexivity].
    apply valid_iff in V as (V & _). congruence. }
  simpl. rewrite calculate_invalid by exact V. cbn [errors calculationResults history form].
  rewrite error_originalPrice, B. done.
Qed.

(** C3: a price field holding a single space is not a number
    ([parseFloat] gives [NaN]), yet [validateInputs] stores no error under
    [originalPrice] and returns [true], and [calculateFinalPrice] goes on:
    it stores a result whose base and final price are [NaN] and adds a
    history entry. *)
Theorem blank_price_is_not_rejected :
  let st' := calculateFinalPrice 0 "t" (state_of form_blank_price) in
  Form.originalPrice form_blank_price = " "
  /\ parseFloat (Form.originalPrice form_blank_price) = NaN
  /\ truthy (Form.originalPrice form_blank_price) = true
  /\ isNaN (Form.originalPrice form_blank_price) = false
  /\ le (parseFloat (Form.originalPrice form_blank_price)) (of_Z 0) = false
  /\ newErrors form_blank_price !! "originalPrice" = None
  /\ fst (validateInputs (state_of form_blank_price)) = true
  /\ res_finalPrice (calculationResults st') = Some NaN
  /\ Breakdown.basePrice (res_breakdown (calculationResults st')) = NaN
  /\ length (history st') = 1%nat.
Proof.
  repeat split; vm_compute; reflexivity.
Qed.

(** C1: the form whose price is a single space passes validation, and the
    final price computed from it is [NaN], for which [finalPrice >= 0] is
    false. *)
Theorem blank_price_final_price_is_nan :
  valid form_blank_price = true
  /\ finalPrice (evaluate form_blank_price) = NaN
  /\ ge (finalPrice (evaluate form_blank_price)) (of_Z 0) = false.
Proof.
  repeat split; vm_compute; reflexivity.
Qed.

(** C2: with a price of 0.006, buy 1 get 1 free on items at 1 and a coupon
    of 5, the form passes validation; the promotion deducts
    [roundToTwoDecimals(min(0.006, 1))] = 0.01, which leaves a running total
    of -0.004, and the coupon stage records [min(-0.004, 5)] = -0.004 as
    [couponAmount]: a negative breakdown field. *)
Theorem subcent_price_negative_coupon :
  valid form_subcent_coupon = true
  /\ same (Breakdown.promotionAmount (breakdown (evaluate form_subcent_coupon)))
          (Fin (1 # 100))
  /\ same (runningTotal (afterPromotion form_subcent_coupon)) (Fin (-4 # 1000))
  /\ same (Breakdown.couponAmount (breakdown (evaluate form_subcent_coupon)))
          (Fin (-4 # 1000))
  /\ lt (Breakdown.couponAmount (breakdown (evaluate form_subcent_coupon))) (of_Z 0)
     = true.
Proof.
  repeat split; vm_compute; reflexivity.
Qed.

(** C9: with a single space as "Buy X" and 1 as "Get Y" (and a price of 10
    and items at 1), "Buy X" is not a number, yet no error is stored under
    [buyX] or [getY] and the form passes validation; the promotion is then
    skipped without notice. *)
Theorem blank_buyX_is_not_rejected :
  Form.buyX form_blank_buyX = " "
  /\ parseFloat (Form.buyX form_blank_buyX) = NaN
  /\ isNaN (Form.buyX form_blank_buyX) = false
  /\ le (parseFloat (Form.buyX form_blank_buyX)) (of_Z 0) = false
  /\ bad_buyXgetY form_blank_buyX = false
  /\ newErrors form_blank_buyX !! "buyX" = None
  /\ newErrors form_blank_buyX !! "getY" = None
  /\ valid form_blank_buyX = true
  /\ promotion_applies form_blank_buyX = false
  /\ Breakdown.promotionAmount (breakdown (evaluate form_blank_buyX)) = of_Z 0.
Proof.
  repeat split; vm_compute; reflexivity.
Qed.

(** What the two grouped checks do guarantee: whenever one fails, both
    fields of the pair carry the same message. *)
Lemma grouped_errors_on_both_fields (f : Form.t) :
  (bad_buyXgetY f = true ->
   newErrors f !! "buyX" = Some msg_buyXgetY
   /\ newErrors f !! "getY" = Some msg_buyXgetY)
  /\ (bad_spendSave f = true ->
      newErrors f !! "spendAmount" = Some msg_spendSave
      /\ newErrors f !! "saveAmount" = Some msg_spendSave).
Proof.
  split; intros B.
  - by rewrite error_buyX, error_getY, B.
  - by rewrite error_spendAmount, error_saveAmount, B.
Qed.

(** A pair with exactly one field filled in always fails its check. *)
Lemma half_filled_pair_fails (f : Form.t) :
  (truthy (Form.buyX f) <> truthy (Form.getY f) -> bad_buyXgetY f = true)
  /\ (truthy (Form.spendAmount f) <> truthy (Form.saveAmount f) ->
      bad_spendSave f = true).
Proof.
  unfold bad_buyXgetY, bad_spendSave.
  split; intros N.
  - destruct (truthy (Form.buyX f)), (truthy (Form.getY f)); try congruence;
      reflexivity.
  - destruct (truthy (Form.spendAmount f)), (truthy (Form.saveAmount f));
      try congruence; reflexivity.
Qed.

(** ** The final price of a form whose fields parse to finite numbers *)

Lemma positive_is_fin (v : num) :
  is_inf v = false -> gt v (of_Z 0) = true -> is_fin v = true.
Proof. by destruct v. Qed.

Lemma is_fin_add (a b : num) :
  is_fin a = true -> is_fin b = true -> is_fin (add a b) = true.
Proof. by destruct a, b. Qed.

Lemma is_fin_sub (a b : num) :
  is_fin a = true -> is_fin b = true -> is_fin (sub a b) = true.
Proof. by destruct a, b. Qed.

Lemma is_fin_mul (a b : num) :
  is_fin a = true -> is_fin b = true -> is_fin (mul a b) = true.
Proof. by destruct a, b. Qed.

Lemma is_fin_min (a b : num) :
  is_fin a = true -> is_fin b = true -> is_fin (min a b) = true.
Proof. destruct a, b; try done. intros _ _. simpl. by case_match. Qed.

Lemma is_fin_div (a b : num) :
  is_fin a = true -> is_fin b = true -> gt b (of_Z 0) = true ->
  is_fin (div a b) = true.
Proof.
  destruct a as [| |x], b as [| |y]; try done. intros _ _ G.
  unfold gt in G. simpl in G. apply Qltb_true in G.
  change (inject_Z 0) with 0%Q in G.
  assert (Qis0 y = false) as N by (apply Qis0_false; lra).
  simpl. by rewrite N.
Qed.

Lemma is_fin_floor (a : num) : is_fin a = true -> is_fin (floor a) = true.
Proof. by destruct a. Qed.

Lemma is_fin_ceil (a : num) : is_fin a = true -> is_fin (ceil a) = true.
Proof. by destruct a. Qed.

Lemma is_fin_roundToTwoDecimals (a : num) :
  is_fin a = true -> is_fin (roundToTwoDecimals a) = true.
Proof. by destruct a. Qed.

Lemma hundred_positive : gt (of_Z 100) (of_Z 0) = true.
Proof. reflexivity. Qed.

Create HintDb fin.

#[local] Hint Resolve positive_is_fin is_fin_add is_fin_sub is_fin_mul is_fin_min
  is_fin_div is_fin_floor is_fin_ceil is_fin_roundToTwoDecimals
  hundred_positive : fin.

Section FiniteTotal.
Variable f : Form.t.
Hypothesis fin : finite_inputs f.

Ltac guards H :=
  repeat match type of H with
  | (_ && _) = true => let H' := fresh "G" in apply andb_prop in H as [H H']
  end.

Lemma applyDiscount_fin (a : Acc) :
  is_fin (runningTotal a) = true -> is_fin (runningTotal (applyDiscount f a)) = true.
Proof.
  destruct fin as (_ & _ & _ & D & _). intros R. unfold applyDiscount.
  destruct (discount_applies f) eqn:C; [|exact R].
  unfold discount_applies in C. guards C. simpl.
  auto 10 with fin.
Qed.

Lemma applyBuyXGetY_fin (a : Acc) :
  is_fin (runningTotal a) = true -> is_fin (runningTotal (applyBuyXGetY f a)) = true.
Proof.
  destruct fin as (B & _ & _ & _ & _ & X & Y & I & _). intros R.
  unfold applyBuyXGetY.
  destruct (promotion_applies f) eqn:C; [|exact R].
  destruct (gt (quantity f) (of_Z 0)); [|exact R].
  unfold promotion_applies in C. guards C. simpl.
  unfold freeItemsValue, freeItemsCount, quantity, singleItemPrice.
  auto 15 with fin.
Qed.

Lemma applyCoupon_fin (a : Acc) :
  is_fin (runningTotal a) = true -> is_fin (runningTotal (applyCoupon f a)) = true.
Proof.
  destruct fin as (_ & _ & _ & _ & V & _). intros R. unfold applyCoupon.
  destruct (coupon_applies f) eqn:C; [|exact R].
  unfold coupon_applies in C. guards C. simpl.
  auto 10 with fin.
Qed.

Lemma applySpendSave_fin (a : Acc) :
  is_fin (runningTotal a) = true -> is_fin (runningTotal (applySpendSave f a)) = true.
Proof.
  destruct fin as (_ & _ & _ & _ & _ & _ & _ & _ & S1 & S2). intros R.
  unfold applySpendSave.
  destruct (spendSave_applies f) eqn:C; [|exact R].
  unfold spendSave_applies in C. guards C. simpl.
  auto 10 with fin.
Qed.

Lemma addShipping_fin (a : Acc) :
  is_fin (runningTotal a) = true -> is_fin (runningTotal (addShipping f a)) = true.
Proof.
  destruct fin as (_ & S & _). intros R. unfold addShipping. simpl.
  auto with fin.
Qed.

Lemma applyTax_fin (a : Acc) :
  is_fin (runningTotal a) = true -> is_fin (runningTotal (applyTax f a)) = true.
Proof.
  destruct fin as (_ & _ & T & _). intros R. unfold applyTax.
  destruct (gt (taxRate f) (of_Z 0)) eqn:C; [|exact R].
  simpl. auto 10 with fin.
Qed.

Lemma afterTax_fin : is_fin (runningTotal (afterTax f)) = true.
Proof.
  unfold afterTax, afterShipping, afterSpendSave, afterCoupon, afterPromotion,
    afterDiscount.
  apply applyTax_fin, addShipping_fin, applySpendSave_fin, applyCoupon_fin,
    applyBuyXGetY_fin, applyDiscount_fin.
  destruct fin as (B & _). exact B.
Qed.

End FiniteTotal.

(** Rounding a non-negative number gives a non-negative number. *)
Lemma roundToTwoDecimals_nonneg (x : Q) :
  (0 <= x)%Q -> ge (roundToTwoDecimals (Fin x)) (of_Z 0) = true.
Proof.
  intros P. rewrite roundToTwoDecimals_Fin. unfold ge, le, of_Z.
  apply Qle_bool_iff. change (inject_Z 0) with 0%Q.
  apply Qle_shift_div_l; [reflexivity|].
  rewrite Qmult_0_l. change 0%Q with (inject_Z 0). rewrite <- Zle_Qle.
  change 0%Z with (Qfloor (inject_Z 0)) at 1.
  apply Qfloor_resp_le. change (inject_Z 0) with 0%Q.
  change (inject_Z 100) with 100%Q. lra.
Qed.

(** The clamp and the last rounding: the final price is at least 0 as soon
    as the running total is not [NaN]. *)
Lemma clamped_total_nonneg (rt : num) :
  is_nan rt = false ->
  ge (roundToTwoDecimals (max (of_Z 0) rt)) (of_Z 0) = true.
Proof.
  destruct rt as [|s|x]; [done| |]; intros _.
  - by destruct s.
  - unfold max, le, of_Z. destruct (Qle_bool (inject_Z 0) x) eqn:E.
    + apply roundToTwoDecimals_nonneg. by apply Qle_bool_iff in E.
    + reflexivity.
Qed.

(** In exact arithmetic: for every form whose fields parse to finite
    numbers, valid or not, the final price is at least 0: each deduction
    leaves a finite running total and the last stage clamps it.  (In
    binary64 a finite product can overflow, so this is a fact about the
    exact embedding only.) *)
Lemma finalPrice_nonneg (f : Form.t) :
  finite_inputs f -> ge (finalPrice (evaluate f)) (of_Z 0) = true.
Proof.
  intros F. unfold evaluate. cbn [finalPrice].
  apply clamped_total_nonneg.
  pose proof (afterTax_fin f F) as R.
  by destruct (runningTotal (afterTax f)).
Qed.

(** The coupon scenario: a price of 50 and a coupon of 100 give a coupon
    amount of 50 and a final price of 0. *)
Lemma coupon_over_price :
  valid form_coupon_over = true
  /\ finite_inputs form_coupon_over
  /\ same (Breakdown.couponAmount (breakdown (evaluate form_coupon_over))) (of_Z 50)
  /\ same (finalPrice (evaluate form_coupon_over)) (of_Z 0).
Proof.
  split; [vm_compute; reflexivity|].
  split; [repeat split; vm_compute; reflexivity|].
  split; vm_compute; reflexivity.
Qed.

(** ** Prices in whole cents *)

Local Open Scope Q_scope.

Lemma div100 (r : Q) : r / inject_Z 100 == r * (1 # 100).
Proof. reflexivity. Qed.

Lemma nonneg_Fin (x : Q) : nonneg (Fin x) <-> 0 <= x.
Proof.
  unfold nonneg, ge, le, of_Z. simpl. rewrite Qle_bool_iff.
  change (inject_Z 0) with 0. tauto.
Qed.

Lemma nonneg_inv (v : num) : nonneg v -> exists x, v = Fin x /\ 0 <= x.
Proof.
  destruct v as [| |x]; intros [H1 H2]; try discriminate.
  exists x. split; [reflexivity|]. by apply nonneg_Fin.
Qed.

Lemma positive_inv (v : num) :
  is_inf v = false -> gt v (of_Z 0) = true -> exists x, v = Fin x /\ 0 < x.
Proof.
  destruct v as [| |x]; try discriminate. intros _ G.
  exists x. split; [reflexivity|]. by apply Qltb_true in G.
Qed.

Lemma whole_cents_inv (v : num) :
  whole_cents v ->
  exists (x : Q) (k : Z), v = Fin x /\ (0 <= k)%Z /\ x == inject_Z k / inject_Z 100.
Proof.
  intros (k & K & S). destruct v as [| |x]; simpl in S; try tauto.
  by exists x, k.
Qed.

Lemma whole_cents_nonneg (v : num) : whole_cents v -> nonneg v.
Proof.
  intros (x & k & -> & K & E)%whole_cents_inv. apply nonneg_Fin.
  rewrite E, div100. rewrite Zle_Qle in K. change (inject_Z 0) with 0 in K. lra.
Qed.

(** Rounding a number between 0 and [k] hundredths gives a whole number of
    hundredths in the same range. *)
Lemma round_within_cents (x : Q) (k : Z) :
  0 <= x -> x <= inject_Z k / inject_Z 100 ->
  exists n : Z, (0 <= n <= k)%Z
    /\ roundToTwoDecimals (Fin x) = Fin (inject_Z n / inject_Z 100).
Proof.
  intros P B. rewrite div100 in B.
  set (y := (x + (1 # 4503599627370496)) * inject_Z 100 + (1 # 2)).
  exists (Qfloor y). split; [split|reflexivity].
  - change 0%Z with (Qfloor (inject_Z 0)). apply Qfloor_resp_le.
    unfold y. change (inject_Z 0) with 0. change (inject_Z 100) with 100. lra.
  - apply Z.lt_succ_r. unfold Z.succ. rewrite Zlt_Qlt.
    apply Qle_lt_trans with y; [apply Qfloor_le|].
    rewrite inject_Z_plus. unfold y.
    change (inject_Z 100) with 100. change (inject_Z 1) with 1. lra.
Qed.

(** Taking [n] of [k] hundredths away leaves whole hundredths. *)
Lemma sub_cents (x : Q) (k n : Z) :
  x == inject_Z k / inject_Z 100 -> (0 <= n <= k)%Z ->
  whole_cents (sub (Fin x) (Fin (inject_Z n / inject_Z 100))).
Proof.
  intros E [N1 N2]. exists (k - n)%Z. split; [lia|].
  simpl. rewrite E. unfold Z.sub. rewrite inject_Z_plus, inject_Z_opp.
  rewrite !div100. ring.
Qed.

Lemma min_nonneg (x y : Q) :
  0 <= x -> 0 <= y ->
  exists m, min (Fin x) (Fin y) = Fin m /\ 0 <= m /\ m <= x.
Proof.
  intros X Y. unfold min, le.
  destruct (Qle_bool x y) eqn:E.
  - exists x. repeat split; [assumption | lra].
  - exists y. repeat split; [assumption|].
    destruct (Qlt_le_dec y x) as [L|L]; [lra|].
    apply Qle_bool_iff in L. congruence.
Qed.

Local Close Scope Q_scope.

Section WholeCents.
Variable f : Form.t.
Hypothesis ok : valid f = true.
Hypothesis fin : finite_inputs f.
Local Open Scope Q_scope.

Ltac guards H :=
  repeat match type of H with
  | (_ && _)%bool = true => let H' := fresh "G" in apply andb_prop in H as [H H']
  end.

Lemma valid_price_positive : exists b, basePrice f = Fin b /\ 0 < b.
Proof.
  destruct fin as (B & _). apply valid_iff in ok as (V & _).
  unfold bad_originalPrice in V. apply orb_false_elim in V as [_ V].
  fold (basePrice f) in V. destruct (basePrice f) as [| |b]; try discriminate.
  exists b. split; [reflexivity|].
  simpl in V. apply Qnot_le_lt. intros L. apply Qle_bool_iff in L.
  change (inject_Z 0) with 0 in V. congruence.
Qed.

Lemma valid_discount_below_100 :
  discount_applies f = true ->
  exists r, parseFloat (Form.discountRate f) = Fin r /\ 0 < r /\ r < 100.
Proof.
  intros C. unfold discount_applies in C. guards C.
  destruct fin as (_ & _ & _ & D & _).
  apply valid_iff in ok as (_ & V & _). unfold bad_discountRate in V.
  rewrite C in V. simpl in V. apply orb_false_elim in V as [_ V].
  destruct (positive_inv _ D G) as (r & E & P). rewrite E in V |- *.
  exists r. repeat split; try assumption.
  simpl in V. apply Qnot_le_lt. intros L. apply Qle_bool_iff in L.
  change (inject_Z 100) with 100 in V. congruence.
Qed.

Lemma valid_shipping_nonneg : nonneg (shipping f).
Proof.
  destruct fin as (_ & S & _). apply valid_iff in ok as (_ & _ & V & _).
  unfold bad_shippingFee in V. unfold shipping in *.
  destruct (truthy (Form.shippingFee f)); [|by apply nonneg_Fin].
  simpl in V. apply orb_false_elim in V as [_ V].
  destruct (parseFloat (Form.shippingFee f)) as [| |s]; try discriminate.
  apply nonneg_Fin. simpl in V. apply Qltb_false in V. exact V.
Qed.

(** 1. The discount is at most the running total. *)
Lemma applyDiscount_cents (a : Acc) :
  whole_cents (runningTotal a) ->
  nonneg (Breakdown.discountAmount (acc_breakdown a)) ->
  whole_cents (runningTotal (applyDiscount f a))
  /\ nonneg (Breakdown.discountAmount (acc_breakdown (applyDiscount f a))).
Proof.
  intros W D. unfold applyDiscount.
  destruct (discount_applies f) eqn:C; [|by split].
  destruct (valid_discount_below_100 C) as (r & -> & R0 & R1).
  destruct (whole_cents_inv _ W) as (x & k & -> & K & E).
  assert (0 <= x) as X.
  { rewrite E, div100. rewrite Zle_Qle in K. change (inject_Z 0) with 0 in K. lra. }
  assert (0 <= x * (r / inject_Z 100) /\ x * (r / inject_Z 100) <= inject_Z k / inject_Z 100)
    as [P B].
  { rewrite <- E. rewrite div100. split; nra. }
  destruct (round_within_cents _ k P B) as (n & N & Rd).
  change (div (Fin r) (of_Z 100)) with (Fin (r / inject_Z 100)).
  change (mul (Fin x) (Fin (r / inject_Z 100))) with (Fin (x * (r / inject_Z 100))).
  rewrite Rd. cbn [runningTotal acc_breakdown Breakdown.set_discountAmount
    Breakdown.discountAmount].
  split; [exact (sub_cents _ _ _ E N)|].
  apply nonneg_Fin. rewrite div100. destruct N as [N _].
  rewrite Zle_Qle in N. change (inject_Z 0) with 0 in N. lra.
Qed.

(** The value of the free items is not negative. *)
Lemma freeItems_nonneg :
  promotion_applies f = true ->
  nonneg (mul (freeItemsCount f) (singleItemPrice f)).
Proof.
  intros C. unfold promotion_applies in C. guards C.
  destruct fin as (_ & _ & _ & _ & _ & X & Y & I & _).
  destruct valid_price_positive as (b & Eb & B).
  destruct (positive_inv _ X G1) as (bx & Ex & Px).
  destruct (positive_inv _ Y G0) as (gy & Ey & Py).
  destruct (positive_inv _ I G) as (ip & Ei & Pi).
  unfold freeItemsCount, quantity, singleItemPrice. rewrite Eb, Ex, Ey, Ei.
  assert (Qis0 ip = false) as Ni by (apply Qis0_false; lra).
  assert (Qis0 bx = false) as Nx by (apply Qis0_false; lra).
  cbn [div]. rewrite Ni. cbn [ceil of_Z div]. rewrite Nx. cbn [floor of_Z mul].
  apply nonneg_Fin.
  assert (0 <= inject_Z (Qceiling (b / ip))) as Q0.
  { apply Qle_trans with (b / ip); [|apply Qle_ceiling].
    apply Qle_shift_div_l; lra. }
  assert (0 <= inject_Z (Qfloor (inject_Z (Qceiling (b / ip)) / bx))) as F0.
  { change 0 with (inject_Z 0). rewrite <- Zle_Qle.
    change 0%Z with (Qfloor (inject_Z 0)). apply Qfloor_resp_le.
    change (inject_Z 0) with 0. apply Qle_shift_div_l; lra. }
  apply Qmult_le_0_compat; [apply Qmult_le_0_compat|]; lra.
Qed.

(** 2. The rounded, capped value of the free items is at most the running
    total when that is in whole cents. *)
Lemma applyBuyXGetY_cents (a : Acc) :
  whole_cents (runningTotal a) ->
  nonneg (Breakdown.promotionAmount (acc_breakdown a)) ->
  whole_cents (runningTotal (applyBuyXGetY f a))
  /\ nonneg (Breakdown.promotionAmount (acc_breakdown (applyBuyXGetY f a))).
Proof.
  intros W D. unfold applyBuyXGetY.
  destruct (promotion_applies f) eqn:C; [|by split].
  destruct (gt (quantity f) (of_Z 0)); [|by split].
  destruct (nonneg_inv _ (freeItems_nonneg C)) as (v & Ev & V).
  destruct (whole_cents_inv _ W) as (x & k & Ex & K & E).
  assert (0 <= x) as X.
  { rewrite E, div100. rewrite Zle_Qle in K. change (inject_Z 0) with 0 in K. lra. }
  unfold freeItemsValue. rewrite Ev, Ex.
  destruct (min_nonneg x v X V) as (m & -> & M0 & M1).
  assert (m <= inject_Z k / inject_Z 100) as B by (rewrite <- E; exact M1).
  destruct (round_within_cents _ k M0 B) as (n & N & ->).
  cbn [runningTotal acc_breakdown Breakdown.set_promotionAmount
    Breakdown.promotionAmount].
  split; [exact (sub_cents _ _ _ E N)|].
  apply nonneg_Fin. rewrite div100. destruct N as [N _].
  rewrite Zle_Qle in N. change (inject_Z 0) with 0 in N. lra.
Qed.

(** 3 and 4. A capped deduction of a positive amount. *)
Lemma capped_deduction (rt v : num) :
  nonneg rt -> is_inf v = false -> gt v (of_Z 0) = true ->
  nonneg (sub rt (min rt v)) /\ nonneg (min rt v).
Proof.
  intros (x & -> & X)%nonneg_inv I G.
  destruct (positive_inv _ I G) as (y & -> & Y).
  destruct (min_nonneg x y X) as (m & E & M0 & M1); [lra|].
  rewrite E. split; apply nonneg_Fin; lra.
Qed.

Lemma applyCoupon_nonneg (a : Acc) :
  nonneg (runningTotal a) ->
  nonneg (Breakdown.couponAmount (acc_breakdown a)) ->
  nonneg (runningTotal (applyCoupon f a))
  /\ nonneg (Breakdown.couponAmount (acc_breakdown (applyCoupon f a))).
Proof.
  intros R D. unfold applyCoupon.
  destruct (coupon_applies f) eqn:C; [|by split].
  unfold coupon_applies in C. guards C.
  destruct fin as (_ & _ & _ & _ & V & _).
  cbn [runningTotal acc_breakdown Breakdown.set_couponAmount
    Breakdown.couponAmount].
  by apply capped_deduction.
Qed.

Lemma applySpendSave_nonneg (a : Acc) :
  nonneg (runningTotal a) ->
  nonneg (Breakdown.spendSaveAmount (acc_breakdown a)) ->
  nonneg (runningTotal (applySpendSave f a))
  /\ nonneg (Breakdown.spendSaveAmount (acc_breakdown (applySpendSave f a))).
Proof.
  intros R D. unfold applySpendSave.
  destruct (spendSave_applies f) eqn:C; [|by split].
  unfold spendSave_applies in C. guards C.
  destruct fin as (_ & _ & _ & _ & _ & _ & _ & _ & _ & S).
  cbn [runningTotal acc_breakdown Breakdown.set_spendSaveAmount
    Breakdown.spendSaveAmount].
  by apply capped_deduction.
Qed.

(** 6. The tax on a non-negative total. *)
Lemma applyTax_nonneg (a : Acc) :
  nonneg (runningTotal a) ->
  nonneg (Breakdown.taxAmount (acc_breakdown a)) ->
  nonneg (Breakdown.taxAmount (acc_breakdown (applyTax f a))).
Proof.
  intros R D. unfold applyTax.
  destruct (gt (taxRate f) (of_Z 0)) eqn:C; [|exact D].
  destruct fin as (_ & _ & T & _).
  destruct (positive_inv _ T C) as (t & -> & P).
  destruct (nonneg_inv _ R) as (x & -> & X).
  cbn [runningTotal acc_breakdown Breakdown.set_taxAmount Breakdown.taxAmount].
  change (div (Fin t) (of_Z 100)) with (Fin (t / inject_Z 100)).
  change (mul (Fin x) (Fin (t / inject_Z 100))) with (Fin (x * (t / inject_Z 100))).
  split; [reflexivity|]. apply roundToTwoDecimals_nonneg.
  rewrite div100. nra.
Qed.

End WholeCents.

Lemma nonneg_zero : nonneg (of_Z 0).
Proof. by apply nonneg_Fin. Qed.

Lemma nonneg_add (a b : num) : nonneg a -> nonneg b -> nonneg (add a b).
Proof.
  intros (x & -> & X)%nonneg_inv (y & -> & Y)%nonneg_inv.
  apply nonneg_Fin. lra.
Qed.

(** In exact arithmetic: for every valid form whose fields parse to finite
    numbers and whose price is a whole number of cents, the seven fields of
    the breakdown are finite and non-negative, and so is the running total
    after each of the four discount stages.  (In binary64 a price in cents
    is not a whole number of hundredths, so this is a fact about the exact
    embedding only.) *)
Lemma breakdown_nonneg_whole_cents (f : Form.t) :
  valid f = true -> finite_inputs f -> whole_cents (basePrice f) ->
  let b := breakdown (evaluate f) in
  nonneg (Breakdown.basePrice b) /\ nonneg (Breakdown.discountAmount b)
  /\ nonneg (Breakdown.couponAmount b) /\ nonneg (Breakdown.promotionAmount b)
  /\ nonneg (Breakdown.spendSaveAmount b) /\ nonneg (Breakdown.shippingFee b)
  /\ nonneg (Breakdown.taxAmount b)
  /\ nonneg (runningTotal (afterPromotion f))
  /\ nonneg (runningTotal (afterSpendSave f)).
Proof.
  intros V F W. cbv zeta.
  rewrite result_basePrice, result_discountAmount, result_couponAmount,
    result_promotionAmount, result_spendSaveAmount, result_shippingFee,
    result_taxAmount.
  destruct (applyDiscount_cents f V F (start f) W nonneg_zero) as [W1 D1].
  fold (afterDiscount f) in W1, D1.
  destruct (applyBuyXGetY_cents f V F (afterDiscount f) W1) as [W2 P2].
  { rewrite promotionAmount_before. apply nonneg_zero. }
  fold (afterPromotion f) in W2, P2.
  destruct (applyCoupon_nonneg f F (afterPromotion f)) as [R3 C3].
  { by apply whole_cents_nonneg. }
  { rewrite couponAmount_before. apply nonneg_zero. }
  fold (afterCoupon f) in R3, C3.
  destruct (applySpendSave_nonneg f F (afterCoupon f) R3) as [R4 S4].
  { rewrite spendSaveAmount_before. apply nonneg_zero. }
  fold (afterSpendSave f) in R4, S4.
  assert (nonneg (runningTotal (afterShipping f))) as R5.
  { apply nonneg_add; [exact R4 | by apply valid_shipping_nonneg]. }
  pose proof (applyTax_nonneg f F (afterShipping f) R5) as T6.
  fold (afterTax f) in T6.
  repeat split; try (apply whole_cents_nonneg; assumption);
    try apply (valid_shipping_nonneg f V F); try apply W;
    try apply D1; try apply P2; try apply C3; try apply S4; try apply R4;
    try (apply T6; rewrite taxAmount_before; apply nonneg_zero).
Qed.

(** The scenario forms have prices in whole cents. *)
Lemma coupon_over_price_whole_cents : whole_cents (basePrice form_coupon_over).
Proof. exists 5000%Z. split; [lia | vm_compute; reflexivity]. Qed.

(** The two lemmas on the scenario forms. *)
Example finalPrice_nonneg_coupon_over :
  ge (finalPrice (evaluate form_coupon_over)) (of_Z 0) = true.
Proof.
  apply finalPrice_nonneg. repeat split; vm_compute; reflexivity.
Qed.

Example breakdown_nonneg_buy2_get1 :
  nonneg (Breakdown.promotionAmount (breakdown (evaluate form_buy2_get1)))
  /\ nonneg (runningTotal (afterPromotion form_buy2_get1)).
Proof.
  destruct (breakdown_nonneg_whole_cents form_buy2_get1)
    as (_ & _ & _ & P & _ & _ & _ & R & _).
  - vm_compute; reflexivity.
  - repeat split; vm_compute; reflexivity.
  - exists 10000%Z. split; [lia | vm_compute; reflexivity].
  - split; assumption.
Qed.

(** * Further properties of the code *)

(** ** [roundToTwoDecimals] *)

Local Open Scope Q_scope.

(** X3: rounding keeps the order of two numbers. *)
Theorem roundToTwoDecimals_monotone (a b : num) :
  le a b = true -> le (roundToTwoDecimals a) (roundToTwoDecimals b) = true.
Proof.
  destruct a as [|s|x], b as [|t|y]; try discriminate.
  - by destruct s, t.
  - by destruct s.
  - by destruct t.
  - intros H. unfold le in H. apply Qle_bool_iff in H.
    rewrite !roundToTwoDecimals_Fin. unfold le. apply Qle_bool_iff.
    rewrite !div100. 
    assert (inject_Z (Qfloor ((x + (1 # 4503599627370496)) * inject_Z 100 + (1 # 2)))
            <= inject_Z (Qfloor ((y + (1 # 4503599627370496)) * inject_Z 100 + (1 # 2)))) as M.
    { rewrite <- Zle_Qle. apply Qfloor_resp_le.
      change (inject_Z 100) with 100. lra. }
    lra.
Qed.

Lemma roundToTwoDecimals_monotone_witness :
  le (Fin (1 # 3)) (Fin (1 # 2)) = true
  /\ le (roundToTwoDecimals (Fin (1 # 3))) (roundToTwoDecimals (Fin (1 # 2))) = true.
Proof.
  split; [reflexivity|].
  apply (roundToTwoDecimals_monotone (Fin (1 # 3)) (Fin (1 # 2))). reflexivity.
Defined.

Local Close Scope Q_scope.

(** ** The calculation: how the breakdown adds up *)

Lemma sub_zero (a : num) : same (sub a (of_Z 0)) a.
Proof. destruct a as [|s|x]; simpl; [done | by destruct s |]. ring. Qed.

Lemma add_zero (a : num) : same (add a (of_Z 0)) a.
Proof. destruct a as [|s|x]; simpl; [done | done |]. ring. Qed.

Section AddsUp.
Variable f : Form.t.
Import Breakdown.

Lemma afterDiscount_total :
  same (runningTotal (afterDiscount f))
       (sub (parseFloat (Form.originalPrice f))
            (discountAmount (acc_breakdown (afterDiscount f)))).
Proof.
  unfold afterDiscount, applyDiscount.
  destruct (discount_applies f); [reflexivity|].
  symmetry. apply sub_zero.
Qed.

Lemma afterPromotion_total :
  same (runningTotal (afterPromotion f))
       (sub (runningTotal (afterDiscount f))
            (promotionAmount (acc_breakdown (afterPromotion f)))).
Proof.
  pose proof (promotionAmount_before f) as E.
  unfold afterPromotion, applyBuyXGetY.
  destruct (promotion_applies f); [destruct (gt (quantity f) (of_Z 0))|];
    try reflexivity; rewrite E; symmetry; apply sub_zero.
Qed.

Lemma afterCoupon_total :
  same (runningTotal (afterCoupon f))
       (sub (runningTotal (afterPromotion f))
            (couponAmount (acc_breakdown (afterCoupon f)))).
Proof.
  pose proof (couponAmount_before f) as E.
  unfold afterCoupon, applyCoupon.
  destruct (coupon_applies f); [reflexivity|].
  rewrite E. symmetry. apply sub_zero.
Qed.

Lemma afterSpendSave_total :
  same (runningTotal (afterSpendSave f))
       (sub (runningTotal (afterCoupon f))
            (spendSaveAmount (acc_breakdown (afterSpendSave f)))).
Proof.
  pose proof (spendSaveAmount_before f) as E.
  unfold afterSpendSave, applySpendSave.
  destruct (spendSave_applies f); [reflexivity|].
  rewrite E. symmetry. apply sub_zero.
Qed.

Lemma afterTax_total :
  same (runningTotal (afterTax f))
       (add (add (runningTotal (afterSpendSave f)) (shipping f))
            (taxAmount (acc_breakdown (afterTax f)))).
Proof.
  pose proof (taxAmount_before f) as E.
  unfold afterTax, applyTax.
  destruct (gt (taxRate f) (of_Z 0)); [reflexivity|].
  rewrite E. symmetry. apply add_zero.
Qed.

End AddsUp.

(** X4: for every form, the final price is the rounded, clamped value of
    the base price minus the discount, promotion, coupon and spend-and-save
    amounts of the breakdown (in that order) plus its shipping fee and tax:
    the breakdown shown accounts for the whole final price. *)
Theorem finalPrice_adds_up (f : Form.t) :
  let b := breakdown (evaluate f) in
  same (finalPrice (evaluate f))
       (roundToTwoDecimals
          (max (of_Z 0)
             (add (add (sub (sub (sub (sub (Breakdown.basePrice b)
                                           (Breakdown.discountAmount b))
                                      (Breakdown.promotionAmount b))
                                 (Breakdown.couponAmount b))
                            (Breakdown.spendSaveAmount b))
                       (Breakdown.shippingFee b))
                  (Breakdown.taxAmount b)))).
Proof.
  cbv zeta.
  rewrite result_basePrice, result_discountAmount, result_promotionAmount,
    result_couponAmount, result_spendSaveAmount, result_shippingFee,
    result_taxAmount.
  rewrite <- afterDiscount_total, <- afterPromotion_total, <- afterCoupon_total,
    <- afterSpendSave_total, <- afterTax_total.
  reflexivity.
Qed.

(** ** Fields the code does not read *)

(** The form with another text in its [quantity] field (the component
    never writes that field after initialising it to "1"). *)
Definition set_quantity (v : string) (f : Form.t) : Form.t :=
  let 'Form.mk op dr sf uc cv bx gy ip _ sp sv tr := f in
  Form.mk op dr sf uc cv bx gy ip v sp sv tr.

(** Two forms on which every stage acts alike give the same result. *)
Lemma evaluate_ext (f g : Form.t) :
  start f = start g ->
  (forall a, applyDiscount f a = applyDiscount g a) ->
  (forall a, applyBuyXGetY f a = applyBuyXGetY g a) ->
  (forall a, applyCoupon f a = applyCoupon g a) ->
  (forall a, applySpendSave f a = applySpendSave g a) ->
  (forall a, addShipping f a = addShipping g a) ->
  (forall a, applyTax f a = applyTax g a) ->
  evaluate f = evaluate g.
Proof.
  intros H0 H1 H2 H3 H4 H5 H6.
  unfold evaluate, afterTax, afterShipping, afterSpendSave, afterCoupon,
    afterPromotion, afterDiscount.
  by rewrite H0, H1, H2, H3, H4, H5, H6.
Qed.

(** X7: while the coupon switch is off, the text of the coupon field has
    no effect: whatever it holds, validation stores the same errors, the
    calculation gives the same result, and the coupon amount is 0. *)
Theorem coupon_ignored_when_switched_off (f : Form.t) (v : string) :
  Form.useCoupon f = false ->
  newErrors (set_text CouponValue v f) = newErrors f
  /\ evaluate (set_text CouponValue v f) = evaluate f
  /\ Breakdown.couponAmount (breakdown (evaluate f)) = of_Z 0.
Proof.
  intros U. destruct f as [op dr sf uc cv bx gy ip q sp sv tr].
  simpl in U. subst uc.
  split; [reflexivity|].
  split; [apply evaluate_ext; try reflexivity; intros a; reflexivity|].
  rewrite result_couponAmount.
  pose proof (couponAmount_before (Form.mk op dr sf false cv bx gy ip q sp sv tr)) as E.
  unfold afterCoupon, applyCoupon.
  change (coupon_applies (Form.mk op dr sf false cv bx gy ip q sp sv tr)) with false.
  exact E.
Qed.

Lemma coupon_ignored_when_switched_off_witness :
  Form.useCoupon (priced "20") = false
  /\ newErrors (set_text CouponValue "abc" (priced "20")) = newErrors (priced "20")
  /\ evaluate (set_text CouponValue "abc" (priced "20")) = evaluate (priced "20")
  /\ Breakdown.couponAmount (breakdown (evaluate (priced "20"))) = of_Z 0.
Proof.
  split; [reflexivity|].
  apply (coupon_ignored_when_switched_off (priced "20") "abc"). reflexivity.
Defined.

(** X8: while "Buy X" and "Get Y" are both empty, the item price has no
    effect: it is neither validated nor used, and no promotion is
    deducted. *)
Theorem itemPrice_ignored_without_promotion (f : Form.t) (v : string) :
  Form.buyX f = "" -> Form.getY f = "" ->
  newErrors (set_text ItemPrice v f) = newErrors f
  /\ evaluate (set_text ItemPrice v f) = evaluate f
  /\ Breakdown.promotionAmount (breakdown (evaluate f)) = of_Z 0.
Proof.
  intros X Y. destruct f as [op dr sf uc cv bx gy ip q sp sv tr].
  simpl in X, Y. subst bx gy.
  split; [reflexivity|].
  split; [apply evaluate_ext; try reflexivity; intros a; reflexivity|].
  rewrite result_promotionAmount.
  pose proof (promotionAmount_before (Form.mk op dr sf uc cv "" "" ip q sp sv tr)) as E.
  unfold afterPromotion, applyBuyXGetY.
  change (promotion_applies (Form.mk op dr sf uc cv "" "" ip q sp sv tr)) with false.
  exact E.
Qed.

Lemma itemPrice_ignored_without_promotion_witness :
  newErrors (set_text ItemPrice "-3" (priced "20")) = newErrors (priced "20")
  /\ evaluate (set_text ItemPrice "-3" (priced "20")) = evaluate (priced "20")
  /\ Breakdown.promotionAmount (breakdown (evaluate (priced "20"))) = of_Z 0.
Proof.
  apply (itemPrice_ignored_without_promotion (priced "20") "-3"); reflexivity.
Defined.

(** X9: the [quantity] field of the form is never read: validation and
    calculation give the same outcome whatever it holds (the quantity of
    the promotion is computed from the price and the item price). *)
Theorem quantity_field_is_never_read (f : Form.t) (v : string) :
  newErrors (set_quantity v f) = newErrors f
  /\ evaluate (set_quantity v f) = evaluate f
  /\ quantity (set_quantity v f) = quantity f.
Proof.
  destruct f.
  split; [reflexivity|].
  split; [apply evaluate_ext; try reflexivity; intros a; reflexivity | reflexivity].
Qed.

(** ** What a valid form looks like *)

(** X10: in a form that passes validation the grouped fields are filled
    in together: "Buy X" is non-empty exactly when "Get Y" is, and then
    the item price is non-empty too; "Spend" is non-empty exactly when
    "Save" is; and with the coupon switch on the coupon value is
    non-empty. *)
Theorem valid_form_groups_complete (f : Form.t) :
  valid f = true ->
  truthy (Form.buyX f) = truthy (Form.getY f)
  /\ (truthy (Form.buyX f) = true -> truthy (Form.itemPrice f) = true)
  /\ truthy (Form.spendAmount f) = truthy (Form.saveAmount f)
  /\ (Form.useCoupon f = true -> truthy (Form.couponValue f) = true)
  /\ truthy (Form.originalPrice f) = true.
Proof.
  intros V. apply valid_iff in V as (V1 & _ & _ & _ & V5 & V6 & V7 & V8).
  unfold bad_originalPrice, bad_couponValue, bad_buyXgetY, bad_itemPrice,
    bad_spendSave in *.
  destruct (truthy (Form.buyX f)), (truthy (Form.getY f)),
    (truthy (Form.itemPrice f)), (truthy (Form.spendAmount f)),
    (truthy (Form.saveAmount f)), (Form.useCoupon f),
    (truthy (Form.couponValue f)), (truthy (Form.originalPrice f));
    simpl in *; try discriminate; repeat split; congruence.
Qed.

Lemma valid_form_groups_complete_witness :
  valid form_buy2_get1 = true
  /\ truthy (Form.buyX form_buy2_get1) = truthy (Form.getY form_buy2_get1)
  /\ (truthy (Form.buyX form_buy2_get1) = true ->
      truthy (Form.itemPrice form_buy2_get1) = true)
  /\ truthy (Form.spendAmount form_buy2_get1) = truthy (Form.saveAmount form_buy2_get1)
  /\ (Form.useCoupon form_buy2_get1 = true ->
      truthy (Form.couponValue form_buy2_get1) = true)
  /\ truthy (Form.originalPrice form_buy2_get1) = true.
Proof.
  assert (valid form_buy2_get1 = true) as V by (vm_compute; reflexivity).
  split; [exact V|].
  exact (valid_form_groups_complete form_buy2_get1 V).
Defined.

(** X11: when only the price is filled in, the form is valid exactly when
    the price check passes, and then no stage changes the running total:
    the final price is the rounded price, the savings are the rounded 0,
    and every breakdown field but the price is 0. *)
Theorem price_only (p : string) :
  valid (priced p) = negb (bad_originalPrice (priced p))
  /\ (valid (priced p) = true ->
      same (finalPrice (evaluate (priced p))) (roundToTwoDecimals (parseFloat p))
      /\ same (totalSavings (evaluate (priced p))) (of_Z 0)
      /\ breakdown (evaluate (priced p))
         = {| Breakdown.basePrice := parseFloat p;
              Breakdown.discountAmount := of_Z 0;
              Breakdown.couponAmount := of_Z 0;
              Breakdown.promotionAmount := of_Z 0;
              Breakdown.spendSaveAmount := of_Z 0;
              Breakdown.shippingFee := of_Z 0;
              Breakdown.taxAmount := of_Z 0 |}).
Proof.
  assert (valid (priced p) = negb (bad_originalPrice (priced p))) as E.
  { destruct (valid (priced p)) eqn:V.
    - apply valid_iff in V as (-> & _). reflexivity.
    - destruct (bad_originalPrice (priced p)) eqn:B; [reflexivity|].
      assert (valid (priced p) = true) as V'; [|congruence].
      apply valid_iff. rewrite B. repeat split; reflexivity. }
  split; [exact E|].
  intros V. rewrite V in E. symmetry in E. apply negb_true_iff in E.
  unfold bad_originalPrice in E. apply orb_false_elim in E as [_ E].
  change (Form.originalPrice (priced p)) with p in E.
  split; [|split; [vm_compute; reflexivity | reflexivity]].
  change (finalPrice (evaluate (priced p))) with
    (roundToTwoDecimals (max (of_Z 0) (add (parseFloat p) (of_Z 0)))).
  destruct (parseFloat p) as [|s|x]; [reflexivity | by destruct s |].
  unfold le, of_Z in E.
  assert (0 < x)%Q as X.
  { apply Qnot_le_lt. intros L. apply Qle_bool_iff in L.
    change (inject_Z 0) with 0%Q in E. congruence. }
  cbn [add]. unfold max, le, of_Z.
  assert (Qle_bool (inject_Z 0) (x + inject_Z 0) = true) as ->.
  { apply Qle_bool_iff. change (inject_Z 0) with 0%Q. lra. }
  apply roundToTwoDecimals_same. simpl. change (inject_Z 0) with 0%Q. ring.
Qed.

(** ** Editing, resetting and recalculating *)

#[global] Instance TextField_eq_dec : EqDecision TextField.
Proof. solve_decision. Defined.

(** The text of a field of the form. *)
Definition get_text (k : TextField) (f : Form.t) : string :=
  match k with
  | OriginalPrice => Form.originalPrice f | DiscountRate => Form.discountRate f
  | ShippingFee => Form.shippingFee f | CouponValue => Form.couponValue f
  | BuyX => Form.buyX f | GetY => Form.getY f | ItemPrice => Form.itemPrice f
  | SpendAmount => Form.spendAmount f | SaveAmount => Form.saveAmount f
  | TaxRate => Form.taxRate f
  end.

(** The messages [validateInputs] can store, with their keys. *)
Definition known_errors : list (string * string) :=
  [("originalPrice", msg_originalPrice); ("discountRate", msg_discountRate);
   ("shippingFee", msg_shippingFee); ("taxRate", msg_taxRate);
   ("couponValue", msg_couponValue); ("buyX", msg_buyXgetY);
   ("getY", msg_buyXgetY); ("itemPrice", msg_itemPrice);
   ("spendAmount", msg_spendSave); ("saveAmount", msg_spendSave)].

(** Every stored error is one [validateInputs] wrote. *)
Definition errors_known (e : gmap string string) : Prop :=
  forall k m, e !! k = Some m -> (k, m) ∈ known_errors.

(** The displayed result is the one of the newest history entry, or there
    is neither. *)
Definition result_matches_history (st : State) : Prop :=
  match history st with
  | [] => res_finalPrice (calculationResults st) = None
          /\ res_totalSavings (calculationResults st) = None
  | item :: _ =>
      res_finalPrice (calculationResults st) = Some (item_finalPrice item)
      /\ res_totalSavings (calculationResults st) = Some (item_totalSavings item)
      /\ res_breakdown (calculationResults st) = item_breakdown item
  end.

Ltac in_known :=
  unfold known_errors;
  repeat first [ apply list_elem_of_here | apply list_elem_of_further ].

Lemma newErrors_known (f : Form.t) : errors_known (newErrors f).
Proof.
  intros k m H. rewrite newErrors_lookup in H.
  repeat match type of H with
  | (if ?c then Some _ else _) = Some _ =>
      let E := fresh "E" in
      destruct c eqn:E;
      [ injection H as <-; apply andb_prop in E as [_ E];
        first [ apply orb_prop in E as [E|E] | idtac ];
        apply bool_decide_eq_true in E; subst k; in_known
      | ]
  end.
  discriminate.
Qed.

Lemma clear_error_lookup (key j : string) (e : gmap string string) :
  errors_known e ->
  clear_error key e !! j = if bool_decide (key = j) then None else e !! j.
Proof.
  intros K. unfold clear_error.
  destruct (e !! key) as [m|] eqn:E.
  - assert (truthy m = true) as ->.
    { apply K in E. unfold known_errors in E.
      repeat (apply elem_of_cons in E as [E|E]; [by injection E as _ ->|]).
      by apply elem_of_nil in E. }
    rewrite lookup_delete. case_decide; case_bool_decide; congruence.
  - case_bool_decide; [by subst j|reflexivity].
Qed.

Lemma clear_error_known (key : string) (e : gmap string string) :
  errors_known e -> errors_known (clear_error key e).
Proof.
  intros K k m H. rewrite clear_error_lookup in H by exact K.
  case_bool_decide; [discriminate|]. by apply K.
Qed.

Lemma step_errors_known (st : State) (e : Event) :
  errors_known (errors st) -> errors_known (errors (step st e)).
Proof.
  intros K. destruct e as [k v | v | c | now stamp |]; simpl.
  - by apply clear_error_known.
  - by apply clear_error_known.
  - exact K.
  - destruct (valid (form st)) eqn:V.
    + rewrite calculate_valid by exact V. apply newErrors_known.
    + rewrite calculate_invalid by exact V. apply newErrors_known.
  - intros k m H. by rewrite lookup_empty in H.
Qed.

Lemma reachable_errors_known (st : State) :
  reachable st -> errors_known (errors st).
Proof.
  intros [es ->]. unfold run.
  assert (errors_known (errors initial)) as K0.
  { intros k m H. simpl in H. by rewrite lookup_empty in H. }
  revert K0. generalize initial. induction es as [|e es IH]; intros st K; simpl.
  - exact K.
  - apply IH. by apply step_errors_known.
Qed.

Lemma get_set_text (k j : TextField) (v : string) (f : Form.t) :
  get_text j (set_text k v f) = if bool_decide (k = j) then v else get_text j f.
Proof.
  destruct f, k, j; reflexivity.
Qed.

(** X12: in every reachable state, editing a text field
    ([handleInputChange]) stores the new text in that field and leaves the
    other fields and the coupon switch alone; it removes the error of that
    field and keeps every other error; and it changes neither the result
    shown nor the history. *)
Theorem handleInputChange_effect (st : State) (k : TextField) (v : string) :
  reachable st ->
  let st' := step st (ChangeText k v) in
  (forall j, get_text j (form st')
             = if bool_decide (k = j) then v else get_text j (form st))
  /\ Form.useCoupon (form st') = Form.useCoupon (form st)
  /\ (forall j, errors st' !! j
                = if bool_decide (key_of k = j) then None else errors st !! j)
  /\ calculationResults st' = calculationResults st
  /\ history st' = history st
  /\ currency st' = currency st.
Proof.
  intros R. simpl.
  split; [intros j; apply get_set_text|].
  split; [by destruct (form st), k|].
  split; [|done].
  intros j. apply clear_error_lookup. by apply reachable_errors_known.
Qed.

Lemma handleInputChange_effect_witness :
  reachable (run initial [ChangeText BuyX "2"; Calculate 1 "t"])
  /\ errors (run initial [ChangeText BuyX "2"; Calculate 1 "t"]) !! "buyX"
     = Some msg_buyXgetY
  /\ errors (run initial [ChangeText BuyX "2"; Calculate 1 "t"; ChangeText BuyX "3"])
       !! "buyX" = None
  /\ errors (run initial [ChangeText BuyX "2"; Calculate 1 "t"; ChangeText BuyX "3"])
       !! "getY"
     = errors (run initial [ChangeText BuyX "2"; Calculate 1 "t"]) !! "getY".
Proof.
  assert (reachable (run initial [ChangeText BuyX "2"; Calculate 1 "t"])) as R
    by (by eexists).
  split; [exact R|]. split; [vm_compute; reflexivity|].
  destruct (handleInputChange_effect _ BuyX "3" R) as (_ & _ & E & _).
  split; [exact (E "buyX") | exact (E "getY")].
Defined.

(** X13: in every reachable state the stored errors are errors
    [validateInputs] wrote: each key is one of the ten field keys and
    carries the message of its check. *)
Theorem reachable_errors_are_known (st : State) :
  reachable st ->
  forall k m, errors st !! k = Some m -> (k, m) ∈ known_errors.
Proof.
  intros [es ->]. unfold run.
  assert (errors_known (errors initial)) as K0.
  { intros k m H. simpl in H. by rewrite lookup_empty in H. }
  revert K0. generalize initial.
  induction es as [|e es IH]; intros st K; simpl; [exact K|].
  apply IH. by apply step_errors_known.
Qed.

Lemma reachable_errors_are_known_witness :
  reachable (run initial [Calculate 1 "t"])
  /\ forall k m, errors (run initial [Calculate 1 "t"]) !! k = Some m ->
       (k, m) ∈ known_errors.
Proof.
  assert (reachable (run initial [Calculate 1 "t"])) as R by (by eexists).
  split; [exact R|].
  exact (reachable_errors_are_known _ R).
Defined.

(** X14: [resetForm] empties the form and the errors and keeps the result
    shown, the history and the currency; a calculation right after it is
    rejected with the price error as its only error and changes neither the
    result nor the history. *)
Theorem resetForm_effect (st : State) (now : Z) (stamp : string) :
  let st1 := step st ResetForm in
  let st2 := step st1 (Calculate now stamp) in
  form st1 = Form.initial /\ errors st1 = ∅
  /\ calculationResults st1 = calculationResults st
  /\ history st1 = history st /\ currency st1 = currency st
  /\ errors st2 = {[ "originalPrice" := msg_originalPrice ]}
  /\ calculationResults st2 = calculationResults st
  /\ history st2 = history st.
Proof.
  cbv zeta. cbn [step].
  assert (valid Form.initial = false) as V by (vm_compute; reflexivity).
  rewrite calculate_invalid by exact V.
  cbn [form errors calculationResults history currency].
  repeat split.
Qed.

(** X15: in every reachable state [isCalculating] is false (both writes
    of a calculation happen in one handler, and a rejected calculation
    returns before the first): the button is never disabled. *)
Theorem isCalculating_never_set (st : State) :
  reachable st -> isCalculating st = false.
Proof.
  intros [es ->]. unfold run.
  assert (isCalculating initial = false) as K0 by reflexivity.
  revert K0. generalize initial.
  induction es as [|e es IH]; intros st K; simpl; [exact K|].
  apply IH. destruct e as [k v | v | c | now stamp |]; simpl; try exact K.
  destruct (valid (form st)) eqn:V.
  - by rewrite calculate_valid.
  - by rewrite calculate_invalid.
Qed.

Lemma isCalculating_never_set_witness :
  reachable (run initial [ChangeText OriginalPrice "5"; Calculate 1 "t"])
  /\ isCalculating (run initial [ChangeText OriginalPrice "5"; Calculate 1 "t"])
     = false.
Proof.
  assert (reachable (run initial [ChangeText OriginalPrice "5"; Calculate 1 "t"]))
    as R by (by eexists).
  split; [exact R | exact (isCalculating_never_set _ R)].
Defined.

Lemma step_result_matches_history (st : State) (e : Event) :
  result_matches_history st -> result_matches_history (step st e).
Proof.
  intros M. destruct e as [k v | v | c | now stamp |]; simpl; try exact M.
  destruct (valid (form st)) eqn:V.
  - rewrite calculate_valid by exact V.
    unfold result_matches_history. cbn [history calculationResults take].
    repeat split.
  - rewrite calculate_invalid by exact V. exact M.
Qed.

(** X16: in every reachable state the result shown is the one recorded in
    the newest history entry (same final price, savings and breakdown), and
    no result is shown while the history is empty; in particular a rejected
    calculation, an edit or a reset leaves the last successful result on
    display. *)
Theorem result_is_newest_history_entry (st : State) :
  reachable st -> result_matches_history st.
Proof.
  intros [es ->]. unfold run.
  assert (result_matches_history initial) as K0 by (by split).
  revert K0. generalize initial.
  induction es as [|e es IH]; intros st K; simpl; [exact K|].
  apply IH. by apply step_result_matches_history.
Qed.

Lemma result_is_newest_history_entry_witness :
  reachable (run initial [ChangeText OriginalPrice "5"; Calculate 1 "t"; ResetForm])
  /\ result_matches_history
       (run initial [ChangeText OriginalPrice "5"; Calculate 1 "t"; ResetForm]).
Proof.
  assert (reachable
    (run initial [ChangeText OriginalPrice "5"; Calculate 1 "t"; ResetForm]))
    as R by (by eexists).
  split; [exact R | exact (result_is_newest_history_entry _ R)].
Defined.

(** X17: the history entry records the currency that was selected when the
    form last changed, not the current one: after an edit, a change of
    currency and a successful calculation, the new entry carries the
    currency from before the change, and it records the price text of the
    form. *)
Theorem history_entry_keeps_old_currency
    (st : State) (k : TextField) (v c : string) (now : Z) (stamp : string) :
  valid (set_text k v (form st)) = true ->
  let st' := run st [ChangeText k v; SetCurrency c; Calculate now stamp] in
  currency st' = c
  /\ exists item rest,
       history st' = item :: rest
       /\ item_currency item = currency st
       /\ item_originalPrice item = Form.originalPrice (set_text k v (form st))
       /\ item_id item = now /\ item_timestamp item = stamp.
Proof.
  intros V. cbv zeta. unfold run. cbn [fold_left]. cbn [step].
  rewrite calculate_valid by exact V.
  cbn [currency history form closureCurrency take].
  split; [reflexivity|].
  eexists _, _. split; [reflexivity|]. repeat split.
Qed.

Lemma history_entry_keeps_old_currency_witness :
  valid (set_text OriginalPrice "5" (form initial)) = true
  /\ currency (run initial [ChangeText OriginalPrice "5"; SetCurrency "EUR";
                            Calculate 1 "t"]) = "EUR"
  /\ exists item rest,
       history (run initial [ChangeText OriginalPrice "5"; SetCurrency "EUR";
                             Calculate 1 "t"]) = item :: rest
       /\ item_currency item = currency initial
       /\ item_originalPrice item
          = Form.originalPrice (set_text OriginalPrice "5" (form initial))
       /\ item_id item = 1%Z /\ item_timestamp item = "t".
Proof.
  assert (valid (set_text OriginalPrice "5" (form initial)) = true) as V
    by (vm_compute; reflexivity).
  split; [exact V|].
  exact (history_entry_keeps_old_currency initial OriginalPrice "5" "EUR" 1 "t" V).
Defined.

(** ** The expandable sections *)

(** The four expandable sections: the keys of the [animations] object
    (lines 106-111). *)
Inductive SectionKey : Type := SecCoupon | SecBuyX | SecSpend | SecTax.

#[global] Instance SectionKey_eq_dec : EqDecision SectionKey.
Proof. solve_decision. Defined.

(** The display state [toggleSection] and [resetForm] write: the expanded
    section ([null] when none is) and, for each section, the value its
    animation runs to (0 at rest, 1 when the arrow is turned); the 300 ms
    the animation takes to get there are not modelled. *)
Record View : Type := mkView {
  expandedSection : option SectionKey;
  animations : SectionKey -> Z
}.

Definition initial_view : View :=
  {| expandedSection := None; animations := fun _ => 0 |}.

(** [toggleSection] (lines 150-160). *)
Definition toggleSection (section : SectionKey) (v : View) : View :=
  let newExpandedSection :=
    if bool_decide (expandedSection v = Some section) then None else Some section in
  let toValue :=
    if bool_decide (newExpandedSection = Some section) then 1 else 0 in
  {| expandedSection := newExpandedSection;
     animations := fun s =>
       if bool_decide (s = section) then toValue else animations v s |}.

(** The display part of [resetForm] (lines 348-351). *)
Definition reset_view (v : View) : View :=
  {| expandedSection := None; animations := fun _ => 0 |}.

(** The whole component: the state of the calculation and the display
    state. *)
Record App : Type := mkApp { core : State; view : View }.

Inductive AppEvent : Type :=
  | Core (e : Event)
  | Toggle (section : SectionKey).

Definition app_step (a : App) (e : AppEvent) : App :=
  match e with
  | Core ResetForm =>
      {| core := step (core a) ResetForm; view := reset_view (view a) |}
  | Core e => {| core := step (core a) e; view := view a |}
  | Toggle s => {| core := core a; view := toggleSection s (view a) |}
  end.

Definition app_initial : App := {| core := initial; view := initial_view |}.

Definition app_run (a : App) (es : list AppEvent) : App := fold_left app_step es a.

Definition app_reachable (a : App) : Prop := exists es, a = app_run app_initial es.

(** The expanded section has its arrow turned, and every animation rests
    at 0 or 1. *)
Definition view_ok (v : View) : Prop :=
  (forall s, expandedSection v = Some s -> animations v s = 1)
  /\ (forall s, animations v s = 0 \/ animations v s = 1).

Lemma toggleSection_ok (s : SectionKey) (v : View) :
  view_ok v -> view_ok (toggleSection s v).
Proof.
  intros [O B]. unfold toggleSection. split.
  - intros t. cbn [expandedSection animations].
    destruct (bool_decide_reflect (expandedSection v = Some s)) as [E|E];
      [discriminate|].
    intros [= <-]. by rewrite !bool_decide_eq_true_2.
  - intros t. cbn [animations].
    destruct (bool_decide (t = s)); [|apply B].
    destruct (bool_decide _); auto.
Qed.

Lemma app_step_view_ok (a : App) (e : AppEvent) :
  view_ok (view a) -> view_ok (view (app_step a e)).
Proof.
  intros K. destruct e as [[]|s]; cbn [app_step view]; try exact K.
  - split; [discriminate | by left].
  - by apply toggleSection_ok.
Qed.

Lemma app_run_view_ok (es : list AppEvent) (a : App) :
  view_ok (view a) -> view_ok (view (app_run a es)).
Proof.
  revert a. induction es as [|e es IH]; intros a K; simpl; [exact K|].
  apply IH. by apply app_step_view_ok.
Qed.

(** X18: in every reachable state of the component at most the expanded
    section is marked open and its arrow is turned (its animation runs to
    1), and every animation runs to 0 or to 1. *)
Theorem expanded_section_arrow_turned (a : App) :
  app_reachable a ->
  (forall s, expandedSection (view a) = Some s -> animations (view a) s = 1)
  /\ (forall s, animations (view a) s = 0 \/ animations (view a) s = 1).
Proof.
  intros [es ->]. apply app_run_view_ok.
  split; [discriminate | by left].
Qed.

Lemma expanded_section_arrow_turned_witness :
  app_reachable (app_run app_initial [Toggle SecCoupon; Toggle SecTax])
  /\ (forall s,
        expandedSection (view (app_run app_initial [Toggle SecCoupon; Toggle SecTax]))
        = Some s ->
        animations (view (app_run app_initial [Toggle SecCoupon; Toggle SecTax])) s = 1)
  /\ (forall s,
        animations (view (app_run app_initial [Toggle SecCoupon; Toggle SecTax])) s = 0
        \/ animations (view (app_run app_initial [Toggle SecCoupon; Toggle SecTax])) s = 1).
Proof.
  assert (app_reachable (app_run app_initial [Toggle SecCoupon; Toggle SecTax]))
    as R by (by eexists).
  split; [exact R | exact (expanded_section_arrow_turned _ R)].
Defined.

(** X19: opening a section while another one is open closes that one but
    does not turn its arrow back: in a reachable state with section [a]
    expanded, toggling a different section [b] leaves [b] expanded, [a]
    collapsed, and the animation of [a] still at 1.  Toggling the expanded
    section itself collapses it and turns its arrow back, and a reset turns
    every arrow back. *)
Theorem collapsed_section_keeps_arrow (x : App) (a b : SectionKey) :
  app_reachable x -> expandedSection (view x) = Some a -> a <> b ->
  let switched := view (app_step x (Toggle b)) in
  let closed := view (app_step x (Toggle a)) in
  let cleared := view (app_step x (Core ResetForm)) in
  expandedSection switched = Some b
  /\ animations switched b = 1 /\ animations switched a = 1
  /\ expandedSection closed = None /\ animations closed a = 0
  /\ expandedSection cleared = None /\ (forall s, animations cleared s = 0).
Proof.
  intros [es ->] E N.
  assert (view_ok (view (app_run app_initial es))) as [O _].
  { apply app_run_view_ok. split; [discriminate | by left]. }
  cbv zeta. cbn [app_step view]. unfold toggleSection. rewrite E.
  cbn [expandedSection animations].
  rewrite (bool_decide_eq_false_2 (Some a = Some b)) by congruence.
  rewrite (bool_decide_eq_true_2 (Some a = Some a)) by reflexivity.
  rewrite !(bool_decide_eq_true_2 (Some b = Some b)) by reflexivity.
  rewrite (bool_decide_eq_true_2 (b = b)) by reflexivity.
  rewrite (bool_decide_eq_false_2 (a = b)) by exact N.
  rewrite (bool_decide_eq_true_2 (a = a)) by reflexivity.
  rewrite (bool_decide_eq_false_2 (None = Some a)) by discriminate.
  repeat split. by apply O.
Qed.

Lemma collapsed_section_keeps_arrow_witness :
  expandedSection (view (app_run app_initial [Toggle SecCoupon])) = Some SecCoupon
  /\ expandedSection
       (view (app_step (app_run app_initial [Toggle SecCoupon]) (Toggle SecTax)))
     = Some SecTax
  /\ animations
       (view (app_step (app_run app_initial [Toggle SecCoupon]) (Toggle SecTax)))
       SecCoupon = 1.
Proof.
  assert (app_reachable (app_run app_initial [Toggle SecCoupon])) as R
    by (by eexists).
  split; [reflexivity|].
  destruct (collapsed_section_keeps_arrow _ SecCoupon SecTax R eq_refl)
    as (H1 & _ & H2 & _); [discriminate|].
  split; [exact H1 | exact H2].
Defined.

(** ** Currency symbols and the breakdown shown *)

(** [CURRENCIES] (lines 76-84): the symbol of each currency code. *)
Definition CURRENCIES : list (string * string) :=
  [("USD", "$"); ("EUR", "€"); ("GBP", "£"); ("JPY", "¥"); ("CNY", "¥");
   ("CAD", "CA$"); ("AUD", "A$")].

(** [CURRENCIES[code].symbol] for a code that is a key of the table. *)
Fixpoint lookup_symbol (table : list (string * string)) (code : string)
    : option string :=
  match table with
  | [] => None
  | (c, s) :: rest => if String.eqb c code then Some s else lookup_symbol rest code
  end.

Definition symbol_of (code : string) : option string :=
  lookup_symbol CURRENCIES code.

(** The buttons of the currency selector (lines 393-411): one per key. *)
Definition currency_codes : list string := map fst CURRENCIES.

(** The events the screen can produce: a currency is only ever selected
    through one of its buttons. *)
Definition from_ui (e : Event) : Prop :=
  match e with
  | SetCurrency c => c ∈ currency_codes
  | _ => True
  end.

Definition ui_reachable (st : State) : Prop :=
  exists es, Forall from_ui es /\ st = run initial es.

(** A piece of displayed text: literal characters, or the decimal text of
    a number (the conversion of a number to text is not modelled). *)
Inductive Part : Type :=
  | Lit (s : string)
  | Num (n : num).

Definition Text : Type := list Part.

(** [formatCurrency] (lines 356-359), given the symbol of the selected
    currency; [None] stands for [null]. *)
Definition formatCurrency (symbol : string) (amount : option num) : Text :=
  match amount with
  | None => []
  | Some a => [Lit symbol; Num a]
  end.

(** Whether a number is falsy: 0 and [NaN] are. *)
Definition falsy (n : num) : bool :=
  match n with
  | NaN => true
  | Inf _ => false
  | Fin q => Qis0 q
  end.

Record Row : Type := mkRow { label : string; value : Text }.

(** [breakdownDisplay] (lines 362-375); [None] stands for [null]. *)
Definition breakdownDisplay (symbol : string) (r : Results) : option (list Row) :=
  match res_finalPrice r with
  | None => None
  | Some fp =>
      if falsy fp then None
      else
        let b := res_breakdown r in
        let line (lbl sign : string) (amount : num) : option Row :=
          if gt amount (of_Z 0)
          then Some {| label := lbl;
                       value := Lit sign :: formatCurrency symbol (Some amount) |}
          else None in
        Some (omap id
          [ Some {| label := "Original Price";
                    value := formatCurrency symbol (Some (Breakdown.basePrice b)) |};
            line "Discount" "-" (Breakdown.discountAmount b);
            line "Coupon" "-" (Breakdown.couponAmount b);
            line "Buy X Get Y" "-" (Breakdown.promotionAmount b);
            line "Spend & Save" "-" (Breakdown.spendSaveAmount b);
            line "Shipping" "+" (Breakdown.shippingFee b);
            line "Tax" "+" (Breakdown.taxAmount b) ])
  end.

(** What evaluating a piece of the screen gives: its content, or a
    [TypeError]. *)
Inductive Outcome (A : Type) : Type :=
  | Rendered (a : A)
  | Throws.
Arguments Rendered {A} a.
Arguments Throws {A}.

Record ResultsBlock : Type := mkBlock {
  block_finalPrice : Text;
  block_savings : Text;
  block_rows : list Row
}.

(** The results block (lines 581-619): nothing while the final price is
    [null]; otherwise the two formatted prices and one line per element of
    [breakdownDisplay], on which [map] is called without a check. *)
Definition resultsBlock (symbol : string) (r : Results) : Outcome (option ResultsBlock) :=
  match res_finalPrice r with
  | None => Rendered None
  | Some _ =>
      match breakdownDisplay symbol r with
      | None => Throws
      | Some rows =>
          Rendered (Some
            {| block_finalPrice := formatCurrency symbol (res_finalPrice r);
               block_savings := formatCurrency symbol (res_totalSavings r);
               block_rows := rows |})
      end
  end.

(** The labels of the breakdown, in the order of the source. *)
Definition breakdown_labels : list string :=
  ["Original Price"; "Discount"; "Coupon"; "Buy X Get Y"; "Spend & Save";
   "Shipping"; "Tax"].

#[global] Instance falsy_same : Proper (same ==> eq) falsy.
Proof.
  intros a b H. destruct a, b; simpl in H; try tauto; try reflexivity.
  simpl. by rewrite H.
Qed.

(** X20: after a successful calculation the results block can be drawn
    exactly when the final price is neither 0 nor [NaN]: when it is 0 (the
    discounts cover the whole price) or [NaN], [breakdownDisplay] is
    [null] while the block is shown, and drawing it throws. *)
Theorem resultsBlock_throws_on_zero
    (st : State) (now : Z) (stamp symbol : string) :
  valid (form st) = true ->
  let st' := calculateFinalPrice now stamp st in
  (falsy (finalPrice (evaluate (form st))) = true ->
   resultsBlock symbol (calculationResults st') = Throws)
  /\ (falsy (finalPrice (evaluate (form st))) = false ->
      exists rows,
        breakdownDisplay symbol (calculationResults st') = Some rows
        /\ resultsBlock symbol (calculationResults st')
           = Rendered (Some
               {| block_finalPrice :=
                    [Lit symbol; Num (finalPrice (evaluate (form st)))];
                  block_savings :=
                    [Lit symbol; Num (totalSavings (evaluate (form st)))];
                  block_rows := rows |})).
Proof.
  intros V. cbv zeta. rewrite calculate_valid by exact V.
  cbn [calculationResults]. unfold resultsBlock, breakdownDisplay, results_of.
  cbn [res_finalPrice res_totalSavings res_breakdown].
  split; intros F; rewrite F; [reflexivity|].
  eexists. split; reflexivity.
Qed.

Lemma resultsBlock_throws_on_zero_witness :
  valid (form (state_of form_coupon_over)) = true
  /\ falsy (finalPrice (evaluate (form (state_of form_coupon_over)))) = true
  /\ resultsBlock "$"
       (calculationResults (calculateFinalPrice 1 "t" (state_of form_coupon_over)))
     = Throws.
Proof.
  assert (valid (form (state_of form_coupon_over)) = true) as V
    by (vm_compute; reflexivity).
  assert (falsy (finalPrice (evaluate (form (state_of form_coupon_over)))) = true)
    as F by (vm_compute; reflexivity).
  split; [exact V|]. split; [exact F|].
  destruct (resultsBlock_throws_on_zero (state_of form_coupon_over) 1 "t" "$" V)
    as [T _].
  exact (T F).
Defined.

Lemma line_rows (symbol : string) (lines : list (string * string * num)) :
  let line (x : string * string * num) : option Row :=
    let '(lbl, sign, amount) := x in
    if gt amount (of_Z 0)
    then Some {| label := lbl;
                 value := Lit sign :: formatCurrency symbol (Some amount) |}
    else None in
  let rows := omap line lines in
  map label rows `sublist_of` map (fun x => fst (fst x)) lines
  /\ Forall (fun row => exists lbl sign amount,
               (lbl, sign, amount) ∈ lines
               /\ row = {| label := lbl; value := [Lit sign; Lit symbol; Num amount] |}
               /\ gt amount (of_Z 0) = true) rows.
Proof.
  cbv zeta. induction lines as [|[[lbl sign] amount] lines [IH1 IH2]].
  - split; constructor.
  - cbn [omap list_omap map fst]. destruct (gt amount (of_Z 0)) eqn:G.
    + split.
      * cbn [map label]. by apply sublist_skip.
      * constructor.
        -- exists lbl, sign, amount. repeat split; [apply list_elem_of_here | exact G].
        -- eapply Forall_impl; [exact IH2|].
           intros row (l & s & a & H & E & P). exists l, s, a.
           repeat split; try assumption. by apply list_elem_of_further.
    + split.
      * by apply sublist_cons.
      * eapply Forall_impl; [exact IH2|].
        intros row (l & s & a & H & E & P). exists l, s, a.
        repeat split; try assumption. by apply list_elem_of_further.
Qed.

(** X21: whenever [breakdownDisplay] yields rows, the first is the
    "Original Price" row with the base price, whatever its value; every
    other row shows an amount that is greater than 0, signed "-" for the
    four deductions and "+" for shipping and tax; and the labels appear in
    the order Original Price, Discount, Coupon, Buy X Get Y, Spend & Save,
    Shipping, Tax, each at most once.  So a deduction of 0, a negative or
    a [NaN] amount is never listed. *)
Theorem breakdownDisplay_rows (symbol : string) (r : Results) (rows : list Row) :
  breakdownDisplay symbol r = Some rows ->
  exists rest,
    rows = {| label := "Original Price";
              value := [Lit symbol; Num (Breakdown.basePrice (res_breakdown r))] |}
           :: rest
    /\ map label rows `sublist_of` breakdown_labels
    /\ (length rows <= 7)%nat
    /\ Forall (fun row => exists sign amount,
                 value row = [Lit sign; Lit symbol; Num amount]
                 /\ gt amount (of_Z 0) = true
                 /\ (sign = "-" \/ sign = "+")) rest.
Proof.
  unfold breakdownDisplay.
  destruct (res_finalPrice r) as [fp|]; [|discriminate].
  destruct (falsy fp); [discriminate|].
  intros [= <-].
  set (b := res_breakdown r).
  set (lines := [("Discount", "-", Breakdown.discountAmount b);
     ("Coupon", "-", Breakdown.couponAmount b);
     ("Buy X Get Y", "-", Breakdown.promotionAmount b);
     ("Spend & Save", "-", Breakdown.spendSaveAmount b);
     ("Shipping", "+", Breakdown.shippingFee b);
     ("Tax", "+", Breakdown.taxAmount b)]).
  pose proof (line_rows symbol lines) as [SL F]. cbv zeta in SL, F.
  set (rest := omap _ lines) in SL, F.
  exists rest. split; [reflexivity|].
  split; [|split].
  - change (map label ({| label := "Original Price";
        value := formatCurrency symbol (Some (Breakdown.basePrice b)) |} :: rest)
      `sublist_of` "Original Price" :: map (fun x => fst (fst x)) lines).
    cbn [map label]. by apply sublist_skip.
  - apply sublist_length in SL. rewrite !length_map in SL.
    change (S (length rest) <= 7)%nat. cbn [length lines] in SL. lia.
  - eapply Forall_impl; [exact F|].
    intros row (l & s & a & H & -> & P). exists s, a.
    split; [reflexivity|]. split; [exact P|].
    repeat (apply elem_of_cons in H as [H|H]; [injection H as _ -> _; auto|]).
    by apply elem_of_nil in H.
Qed.

Lemma breakdownDisplay_rows_witness :
  exists rows,
    breakdownDisplay "$" (results_of (evaluate form_buy2_get1)) = Some rows
    /\ exists rest,
         rows = {| label := "Original Price";
                   value := [Lit "$"; Num (Breakdown.basePrice
                     (res_breakdown (results_of (evaluate form_buy2_get1))))] |}
                :: rest
         /\ map label rows `sublist_of` breakdown_labels
         /\ (length rows <= 7)%nat
         /\ Forall (fun row => exists sign amount,
                      value row = [Lit sign; Lit "$"; Num amount]
                      /\ gt amount (of_Z 0) = true
                      /\ (sign = "-" \/ sign = "+")) rest.
Proof.
  destruct (breakdownDisplay "$" (results_of (evaluate form_buy2_get1)))
    as [rows|] eqn:E; [|vm_compute in E; discriminate].
  exists rows. split; [reflexivity|].
  exact (breakdownDisplay_rows "$" _ rows E).
Defined.

Lemma currency_codes_have_symbols (c : string) :
  c ∈ currency_codes -> is_Some (symbol_of c).
Proof.
  unfold currency_codes, CURRENCIES. cbn [map fst]. intros H.
  repeat (apply elem_of_cons in H as [->|H]; [by eexists|]).
  by apply elem_of_nil in H.
Qed.

(** The currencies a state refers to all have a symbol. *)
Definition currencies_known (st : State) : Prop :=
  currency st ∈ currency_codes
  /\ closureCurrency st ∈ currency_codes
  /\ Forall (fun item => item_currency item ∈ currency_codes) (history st).

Lemma step_currencies_known (st : State) (e : Event) :
  from_ui e -> currencies_known st -> currencies_known (step st e).
Proof.
  intros U (C & CC & H). destruct e as [k v | v | c | now stamp |]; simpl.
  - by repeat split.
  - by repeat split.
  - simpl in U. by repeat split.
  - destruct (valid (form st)) eqn:V.
    + rewrite calculate_valid by exact V. repeat split; try assumption.
      cbn [history]. apply Forall_take. by constructor.
    + rewrite calculate_invalid by exact V. by repeat split.
  - by repeat split.
Qed.

(** X22: in every state reached through the screen, the selected currency
    and the currency of every history entry are keys of [CURRENCIES], so
    the symbol lookups of [formatCurrency] and of the history list never
    miss. *)
Theorem currency_lookups_never_miss (st : State) :
  ui_reachable st ->
  is_Some (symbol_of (currency st))
  /\ Forall (fun item => is_Some (symbol_of (item_currency item))) (history st).
Proof.
  intros (es & U & ->). unfold run.
  assert (currencies_known initial) as K0.
  { repeat split; try constructor; apply list_elem_of_here. }
  assert (currencies_known (fold_left step es initial)) as (C & _ & H).
  { revert K0. generalize initial.
    induction U as [|e es Ue Ues IH]; intros st K; simpl; [exact K|].
    apply IH. by apply step_currencies_known. }
  split; [by apply currency_codes_have_symbols|].
  eapply Forall_impl; [exact H|]. intros item. apply currency_codes_have_symbols.
Qed.

Lemma currency_lookups_never_miss_witness :
  ui_reachable (run initial [ChangeText OriginalPrice "5"; SetCurrency "JPY";
                             Calculate 1 "t"])
  /\ is_Some (symbol_of (currency (run initial
       [ChangeText OriginalPrice "5"; SetCurrency "JPY"; Calculate 1 "t"])))
  /\ Forall (fun item => is_Some (symbol_of (item_currency item)))
       (history (run initial
          [ChangeText OriginalPrice "5"; SetCurrency "JPY"; Calculate 1 "t"])).
Proof.
  assert (ui_reachable (run initial [ChangeText OriginalPrice "5";
            SetCurrency "JPY"; Calculate 1 "t"])) as R.
  { eexists. split; [|reflexivity].
    repeat constructor. }
  split; [exact R | exact (currency_lookups_never_miss _ R)].
Defined.

(** * The calculation in binary64 arithmetic

    The definitions above compute with exact rationals.  Where the value a
    stage records depends on how binary64 rounds (a product such as
    82.10 * 0.05, a quotient such as 99.95 / 19.99), the code is modelled a
    second time with the arithmetic of an IEEE 754 double: every parsed
    literal, sum, difference, product and quotient is the exact result
    rounded to the nearest double, ties to even, overflowing to an
    infinity.  Comparisons, [Math.min], [Math.max], [Math.floor],
    [Math.ceil] and [Math.round] are exact on doubles and are the ones
    above.  Zero stays unsigned. *)

Module B64.

(** [n / d] rounded to the nearest integer, ties to the even one
    ([0 <= n], [0 < d]). *)
Definition round_half_even (n d : Z) : Z :=
  let q := (n / d)%Z in
  let r := (n mod d)%Z in
  if (2 * r <? d)%Z then q
  else if (d <? 2 * r)%Z then (q + 1)%Z
  else if Z.even q then q else (q + 1)%Z.

(** The exponent [e] with [2^e <= n / d < 2^(e+1)] ([0 < n], [0 < d]). *)
Definition binade (n d : Z) : Z :=
  let e0 := (Z.log2 n - Z.log2 d)%Z in
  let below :=
    if (0 <=? e0)%Z then (n <? d * 2 ^ e0)%Z else (n * 2 ^ (- e0) <? d)%Z in
  if below then (e0 - 1)%Z else e0.

(** The double nearest to a positive rational [n / d], as a number of the
    model: 53 significant bits, the smallest exponent of a binary64
    subnormal, [Infinity] from [2^1024] on. *)
Definition nearest (n d : Z) : num :=
  let e := binade n d in
  let t := Z.max (e - 52) (-1074) in
  let m :=
    if (0 <=? t)%Z then round_half_even n (d * 2 ^ t)
    else round_half_even (n * 2 ^ (- t)) d in
  if (0 <=? t)%Z then
    if (2 ^ 1024 <=? m * 2 ^ t)%Z then Inf false
    else Fin (inject_Z (m * 2 ^ t))
  else Fin (Qred (Qmake m (Z.to_pos (2 ^ (- t))))).

(** A number of the model rounded to a double. *)
Definition rnd (a : num) : num :=
  match a with
  | Fin q =>
      match Qnum q with
      | Z0 => Fin 0
      | Zpos p => nearest (Zpos p) (Zpos (Qden q))
      | Zneg p => neg (nearest (Zpos p) (Zpos (Qden q)))
      end
  | _ => a
  end.

Definition add (a b : num) : num := rnd (JS.add a b).
Definition sub (a b : num) : num := rnd (JS.sub a b).
Definition mul (a b : num) : num := rnd (JS.mul a b).
Definition div (a b : num) : num := rnd (JS.div a b).

(** [parseFloat(s)] and [Number(s)] as doubles. *)
Definition parseFloat (s : string) : num := rnd (JS.parseFloat s).
Definition toNumber (s : string) : num := rnd (JS.toNumber s).
Definition isNaN (s : string) : bool := is_nan (toNumber s).


(** [roundToTwoDecimals] (lines 71-73). *)
Definition roundToTwoDecimals (value : num) : num :=
  div (round (mul (add value EPSILON) (of_Z 100))) (of_Z 100).

Section Stages.
Variable f : Form.t.

(** Lines 226-228. *)
Definition basePrice : num := parseFloat (Form.originalPrice f).
Definition shipping : num :=
  if truthy (Form.shippingFee f) then parseFloat (Form.shippingFee f) else of_Z 0.
Definition taxRate : num :=
  if truthy (Form.taxRate f) then parseFloat (Form.taxRate f) else of_Z 0.

(** Lines 230-239. *)
Definition start : Acc :=
  {| runningTotal := basePrice;
     acc_breakdown :=
       {| Breakdown.basePrice := basePrice;
          Breakdown.discountAmount := of_Z 0;
          Breakdown.couponAmount := of_Z 0;
          Breakdown.promotionAmount := of_Z 0;
          Breakdown.spendSaveAmount := of_Z 0;
          Breakdown.shippingFee := shipping;
          Breakdown.taxAmount := of_Z 0 |} |}.

(** 1. Percentage discount (lines 242-246). *)
Definition discount_applies : bool :=
  truthy (Form.discountRate f) && gt (parseFloat (Form.discountRate f)) (of_Z 0).

Definition applyDiscount (a : Acc) : Acc :=
  if discount_applies then
    let discountAmount :=
      roundToTwoDecimals
        (mul (runningTotal a) (div (parseFloat (Form.discountRate f)) (of_Z 100))) in
    {| runningTotal := sub (runningTotal a) discountAmount;
       acc_breakdown := Breakdown.set_discountAmount discountAmount (acc_breakdown a) |}
  else a.

(** 2. Buy X get Y (lines 249-261). *)
Definition promotion_applies : bool :=
  truthy (Form.buyX f) && truthy (Form.getY f) && truthy (Form.itemPrice f)
  && gt (parseFloat (Form.buyX f)) (of_Z 0)
  && gt (parseFloat (Form.getY f)) (of_Z 0)
  && gt (parseFloat (Form.itemPrice f)) (of_Z 0).

Definition singleItemPrice : num := parseFloat (Form.itemPrice f).
Definition quantity : num := ceil (div basePrice singleItemPrice).
Definition freeItemsCount : num :=
  mul (floor (div quantity (parseFloat (Form.buyX f)))) (parseFloat (Form.getY f)).
Definition freeItemsValue (a : Acc) : num :=
  roundToTwoDecimals (min (runningTotal a) (mul freeItemsCount singleItemPrice)).

Definition applyBuyXGetY (a : Acc) : Acc :=
  if promotion_applies then
    if gt quantity (of_Z 0) then
      {| runningTotal := sub (runningTotal a) (freeItemsValue a);
         acc_breakdown :=
           Breakdown.set_promotionAmount (freeItemsValue a) (acc_breakdown a) |}
    else a
  else a.

(** 3. Fixed coupon (lines 264-268). *)
Definition coupon_applies : bool :=
  Form.useCoupon f && truthy (Form.couponValue f)
  && gt (parseFloat (Form.couponValue f)) (of_Z 0).

Definition applyCoupon (a : Acc) : Acc :=
  if coupon_applies then
    let couponAmount := min (runningTotal a) (parseFloat (Form.couponValue f)) in
    {| runningTotal := sub (runningTotal a) couponAmount;
       acc_breakdown := Breakdown.set_couponAmount couponAmount (acc_breakdown a) |}
  else a.

(** 4. Spend and save (lines 271-278). *)
Definition spendSave_applies : bool :=
  truthy (Form.spendAmount f) && truthy (Form.saveAmount f)
  && gt (parseFloat (Form.spendAmount f)) (of_Z 0)
  && gt (parseFloat (Form.saveAmount f)) (of_Z 0)
  && ge basePrice (parseFloat (Form.spendAmount f)).

Definition applySpendSave (a : Acc) : Acc :=
  if spendSave_applies then
    let saveAmount := min (runningTotal a) (parseFloat (Form.saveAmount f)) in
    {| runningTotal := sub (runningTotal a) saveAmount;
       acc_breakdown := Breakdown.set_spendSaveAmount saveAmount (acc_breakdown a) |}
  else a.

(** 5. Shipping (line 281). *)
Definition addShipping (a : Acc) : Acc :=
  {| runningTotal := add (runningTotal a) shipping;
     acc_breakdown := acc_breakdown a |}.

(** 6. Tax (lines 284-288). *)
Definition applyTax (a : Acc) : Acc :=
  if gt taxRate (of_Z 0) then
    let taxAmount :=
      roundToTwoDecimals (mul (runningTotal a) (div taxRate (of_Z 100))) in
    {| runningTotal := add (runningTotal a) taxAmount;
       acc_breakdown := Breakdown.set_taxAmount taxAmount (acc_breakdown a) |}
  else a.

(** The running total and breakdown after each stage. *)
Definition afterDiscount : Acc := applyDiscount start.
Definition afterPromotion : Acc := applyBuyXGetY afterDiscount.
Definition afterCoupon : Acc := applyCoupon afterPromotion.
Definition afterSpendSave : Acc := applySpendSave afterCoupon.
Definition afterShipping : Acc := addShipping afterSpendSave.
Definition afterTax : Acc := applyTax afterShipping.

(** Lines 226-308 of [calculateFinalPrice]. *)
Definition evaluate : Result :=
  let a := afterTax in
  (* 7. Ensure no negative prices *)
  let runningTotal := max (of_Z 0) (runningTotal a) in
  let b := acc_breakdown a in
  let totalSavings :=
    roundToTwoDecimals
      (add (add (add (Breakdown.discountAmount b) (Breakdown.couponAmount b))
                (Breakdown.promotionAmount b))
           (Breakdown.spendSaveAmount b)) in
  let finalPrice := roundToTwoDecimals runningTotal in
  {| finalPrice := finalPrice; totalSavings := totalSavings; breakdown := b |}.

End Stages.

End B64.


Ltac compute_each :=
  repeat match goal with |- _ /\ _ => split end; vm_compute; reflexivity.

(** The binary64 arithmetic on sample values: literals that are not
    doubles, a product and a quotient that round, an absorbed
    [Number.EPSILON], overflow and underflow. *)
Example binary64_samples :
  same (B64.parseFloat "0.1") (Fin (3602879701896397 # 36028797018963968))
  /\ same (B64.parseFloat "99.999999999999999999") (of_Z 100)
  /\ B64.parseFloat "1e400" = Inf false
  /\ same (B64.parseFloat "1e-400") (of_Z 0)
  /\ same (B64.mul (B64.parseFloat "82.10") (B64.div (of_Z 5) (of_Z 100)))
          (B64.parseFloat "4.1049999999999995")
  /\ same (B64.div (B64.mul (B64.parseFloat "82.10") (of_Z 5)) (of_Z 100))
          (B64.parseFloat "4.105")
  /\ same (B64.div (B64.parseFloat "99.95") (B64.parseFloat "19.99"))
          (B64.parseFloat "5.000000000000001")
  /\ same (B64.div (B64.parseFloat "1e-200") (B64.parseFloat "1e200")) (of_Z 0)
  /\ same (B64.add (B64.parseFloat "2.135") EPSILON) (B64.parseFloat "2.135")
  /\ same (B64.roundToTwoDecimals (B64.parseFloat "2.135")) (B64.parseFloat "2.13")
  /\ same (B64.roundToTwoDecimals (B64.parseFloat "1e21"))
          (B64.parseFloat "999999999999999900000")
  /\ B64.roundToTwoDecimals (B64.parseFloat "1e308") = Inf false
  /\ same (B64.roundToTwoDecimals (B64.parseFloat "36847429704948.7"))
          (B64.parseFloat "36847429704948.71").
Proof. compute_each. Qed.

(** ** The breakdown fields the binary64 stages leave alone *)


Section B64Frames.
Variable f : Form.t.
Implicit Type a : Acc.
Import Breakdown.









End B64Frames.

(** ** Buy X get Y, in binary64 *)



(** ** Tax, in binary64 *)



(** ** A blank price among the errors *)

(** A single space as the price and a discount of 150%. *)
Definition form_blank_price_discount : Form.t :=
  set_text DiscountRate "150" (priced " ").

(** C4: with a single space as the price and "150" as the discount rate,
    two rules are broken (the price is not a number, the rate is not below
    100) but the stored error object holds the [discountRate] error only;
    and with the blank price alone the object is empty and
    [validateInputs] returns [true], although the price rule is broken. *)
Theorem blank_price_missing_from_errors :
  parseFloat (Form.originalPrice form_blank_price_discount) = NaN
  /\ ge (parseFloat (Form.discountRate form_blank_price_discount)) (of_Z 100) = true
  /\ errors (snd (validateInputs (state_of form_blank_price_discount)))
     = {[ "discountRate" := msg_discountRate ]}
  /\ errors (snd (validateInputs (state_of form_blank_price_discount)))
       !! "originalPrice" = None
  /\ parseFloat (Form.originalPrice form_blank_price) = NaN
  /\ errors (snd (validateInputs (state_of form_blank_price))) = ∅
  /\ fst (validateInputs (state_of form_blank_price)) = true.
Proof. compute_each. Qed.
